(** * TaskFlow backend: ordering, reorder transactions, cascade delete, fan-out

    A shallow embedding of the Express/Prisma handlers of the TaskFlow
    backend (index.ts and its Socket.IO revision) together with the
    relational schema (schema.prisma), and the properties of the
    ordered-list protocol proved about them.

    Conventions of the embedding:
    - the three tables are finite maps from the row id (a cuid string) to
      the remaining columns;
    - a Prisma call is a function from the database to a [result]: either
      the new database with the returned row, or the error Prisma raises;
    - a handler is a function from the database (and, for the real-time
      revision, the room registry) to the new database and the HTTP
      response; the clock reading and the cuid drawn for a new row are
      inputs of the handler;
    - a string is a text, held as its UTF-8 bytes;
    - a field of a request body is absent, null, a string or some other
      JSON value; of a value that is no string the handlers test the
      truthiness, and Prisma and bcrypt refuse it where they expect a
      string;
    - the store refuses a text that holds U+0000 and, at a creation, an
      [order] outside the 32-bit range of the column; a reorder writes
      the position in the array of the request, which the size of a
      request keeps inside that range;
    - timestamps are integers, and one clock reading serves a request. *)

From Stdlib Require Import ZArith Ascii String List Lia.
From stdpp Require Import base gmap sets list strings sorting.

(** ** Request bodies *)

(** A field of a JSON body as the handlers see it after destructuring
    [req.body]: [undefined], [null], a string, or another JSON value (a
    number, a boolean, an array, an object), of which only the
    truthiness matters below: [0] and [false] are falsy, the others
    truthy. *)
Inductive field :=
  | Absent
  | Null
  | Str (s : string)
  | Other (truthy_other : bool).

(** JavaScript truthiness of such a field. *)
Definition truthy (f : field) : bool :=
  match f with
  | Str s => negb (String.eqb s EmptyString)
  | Other t => t
  | _ => false
  end.

(** ** schema.prisma *)

Record Project := mkProject {
  project_name : string;
  authorId : string;
  project_createdAt : Z;
  project_updatedAt : Z
}.

Record Board := mkBoard {
  board_name : string;
  board_order : Z;
  projectId : string;
  board_createdAt : Z;
  board_updatedAt : Z
}.

Record Task := mkTask {
  title : string;
  description : option string;
  task_order : Z;
  boardId : string;
  task_createdAt : Z;
  task_updatedAt : Z
}.

Record DB := mkDB {
  projects : gmap string Project;
  boards : gmap string Board;
  tasks : gmap string Task
}.

(** Every board refers to an existing project and every task to an
    existing board (the two relations of the schema). *)
Definition referential (d : DB) : Prop :=
  (∀ b row, boards d !! b = Some row → is_Some (projects d !! projectId row)) ∧
  (∀ t row, tasks d !! t = Some row → is_Some (boards d !! boardId row)).

#[export] Instance referential_dec d : Decision (referential d) :=
  and_dec
    (map_Forall_dec (λ _ row, is_Some (projects d !! projectId row)) (boards d))
    (map_Forall_dec (λ _ row, is_Some (boards d !! boardId row)) (tasks d)).

(** ** Prisma results *)

Inductive error :=
  | P2002            (* unique constraint failed *)
  | P2003            (* foreign key constraint failed *)
  | P2025            (* record to update or delete not found *)
  | ValidationError  (* an argument of the query missing or of the wrong type *)
  | Refused          (* a value of the data that the column does not take *)
  | JsError (msg : string).

Inductive result (A : Type) :=
  | Ok (a : A)
  | Err (e : error).
Arguments Ok {A} a.
Arguments Err {A} e.

Definition is_ok {A} (r : result A) : bool :=
  match r with Ok _ => true | Err _ => false end.

(** ** Values the store takes *)

(** A text column takes any string without U+0000. *)
Fixpoint text_ok (s : string) : bool :=
  match s with
  | EmptyString => true
  | String c rest => negb (Ascii.eqb c "000"%char) && text_ok rest
  end.

(** An [Int] column takes the 32-bit integers. *)
Definition int_ok (z : Z) : bool :=
  bool_decide (-2147483648 ≤ z ≤ 2147483647)%Z.

(** A value given for a [String?] column: [undefined] and [null] store
    null, a string is stored when the store takes it, any other value
    is refused by Prisma's validation. [text_of] is what is stored. *)
Definition nullable_text_ok (f : field) : bool :=
  match f with
  | Absent | Null => true
  | Str s => text_ok s
  | Other _ => false
  end.

Definition text_of (f : field) : option string :=
  match f with
  | Str s => Some s
  | _ => None
  end.

(** ** Ordered children of a parent *)

Class Child (A : Type) := {
  parent_of : A → string;
  order_of : A → Z
}.

#[export] Instance board_child : Child Board :=
  {| parent_of := projectId; order_of := board_order |}.
#[export] Instance task_child : Child Task :=
  {| parent_of := boardId; order_of := task_order |}.

Section Queries.
Context {A : Type} `{Child A}.

Definition order_asc : relation (string * A) :=
  λ x y, (order_of x.2 ≤ order_of y.2)%Z.

Definition order_desc : relation (string * A) :=
  λ x y, (order_of y.2 ≤ order_of x.2)%Z.

#[export] Instance order_asc_dec x y : Decision (order_asc x y) :=
  Z_le_dec (order_of x.2) (order_of y.2).

#[export] Instance order_desc_dec x y : Decision (order_desc x y) :=
  Z_le_dec (order_of y.2) (order_of x.2).

(** [where: { parentId }] *)
Definition children (tbl : gmap string A) (pid : string) : list (string * A) :=
  filter (λ kv, parent_of kv.2 = pid) (map_to_list tbl).

(** [findMany({ where: { parentId }, orderBy: { order: 'asc' } })]; rows of
    equal order come in no sequence one may rely on. *)
Definition findMany_asc (tbl : gmap string A) (pid : string) : list (string * A) :=
  merge_sort order_asc (children tbl pid).

(** [findFirst({ where: { parentId }, orderBy: { order: 'desc' } })] *)
Definition findFirst_desc (tbl : gmap string A) (pid : string) : option (string * A) :=
  head (merge_sort order_desc (children tbl pid)).

(** [const newOrder = last ? last.order + 1 : 0] *)
Definition newOrder (last : option (string * A)) : Z :=
  match last with
  | Some l => (order_of l.2 + 1)%Z
  | None => 0%Z
  end.

End Queries.

(** ** Prisma model delegates *)

(** [prisma.board.create({ data: { name, projectId, order } })]: the id
    is the cuid drawn for the row, both timestamps are the clock
    reading. *)
Definition board_create (id : string) (now : Z) (name : field) (pid : string)
    (order : Z) (d : DB) : result (DB * (string * Board)) :=
  match name with
  | Str n =>
    if text_ok n && int_ok order then
      match boards d !! id with
      | Some _ => Err P2002
      | None =>
        match projects d !! pid with
        | None => Err P2003
        | Some _ =>
          let row := mkBoard n order pid now now in
          Ok (mkDB (projects d) (<[id := row]> (boards d)) (tasks d), (id, row))
        end
      end
    else Err Refused
  | _ => Err ValidationError
  end.

(** [prisma.task.create({ data: { title, description, boardId, order } })] *)
Definition task_create (id : string) (now : Z) (ttl desc : field)
    (bid : string) (order : Z) (d : DB) : result (DB * (string * Task)) :=
  match ttl with
  | Str t =>
    if text_ok t && nullable_text_ok desc && int_ok order then
      match tasks d !! id with
      | Some _ => Err P2002
      | None =>
        match boards d !! bid with
        | None => Err P2003
        | Some _ =>
          let row := mkTask t (text_of desc) order bid now now in
          Ok (mkDB (projects d) (boards d) (<[id := row]> (tasks d)), (id, row))
        end
      end
    else Err Refused
  | _ => Err ValidationError
  end.

(** The [data] argument of [prisma.task.update]: a column is written
    only when it is present. *)
Record TaskUpdateInput := mkTaskData {
  set_title : option string;
  set_description : option (option string);
  set_order : option Z;
  set_boardId : option string
}.

(** A [data] without a column: Prisma writes nothing then. *)
Definition writes_nothing (data : TaskUpdateInput) : bool :=
  match set_title data, set_description data, set_order data, set_boardId data with
  | None, None, None, None => true
  | _, _, _, _ => false
  end.

(** Whether the store takes the texts of [data] (an order, when
    written, is a position in the array of a reorder request). *)
Definition data_ok (data : TaskUpdateInput) : bool :=
  match set_title data with
  | Some s => text_ok s
  | None => true
  end &&
  match set_description data with
  | Some (Some s) => text_ok s
  | _ => true
  end.

(** The row after an update; [updatedAt] carries [@updatedAt], which
    moves with a write. *)
Definition apply_task_data (data : TaskUpdateInput) (now : Z) (t : Task) : Task :=
  if writes_nothing data then t
  else
    mkTask (default (title t) (set_title data))
           (default (description t) (set_description data))
           (default (task_order t) (set_order data))
           (default (boardId t) (set_boardId data))
           (task_createdAt t)
           now.

(** The foreign key of a written [boardId]. *)
Definition board_key_ok (data : TaskUpdateInput) (d : DB) : bool :=
  match set_boardId data with
  | Some b => bool_decide (is_Some (boards d !! b))
  | None => true
  end.

(** [prisma.task.update({ where: { id }, data })]. The [where] value is
    whatever the handler passes: an id that is no string is refused by
    the query validation. *)
Definition task_update (where_id : field) (data : TaskUpdateInput) (now : Z)
    (d : DB) : result (DB * (string * Task)) :=
  match where_id with
  | Str id =>
    match tasks d !! id with
    | None => Err P2025
    | Some t =>
      if board_key_ok data d then
        if data_ok data then
          let row := apply_task_data data now t in
          Ok (mkDB (projects d) (boards d) (<[id := row]> (tasks d)), (id, row))
        else Err Refused
      else Err P2003
    end
  | _ => Err ValidationError
  end.

(** [prisma.task.delete({ where: { id } })] *)
Definition task_delete (id : string) (d : DB) : result DB :=
  match tasks d !! id with
  | None => Err P2025
  | Some _ => Ok (mkDB (projects d) (boards d) (delete id (tasks d)))
  end.

(** [prisma.board.delete({ where: { id } })]; the tasks of the board go
    with it ([onDelete: Cascade] on [Task.board]). *)
Definition board_delete (id : string) (d : DB) : result DB :=
  match boards d !! id with
  | None => Err P2025
  | Some _ =>
    Ok (mkDB (projects d)
             (delete id (boards d))
             (filter (λ kv, boardId kv.2 ≠ id) (tasks d)))
  end.

(** Whether board [bid] is a board of project [pid]. *)
Definition board_of_project (d : DB) (pid bid : string) : Prop :=
  match boards d !! bid with
  | Some b => projectId b = pid
  | None => False
  end.

#[export] Instance board_of_project_dec d pid bid :
    Decision (board_of_project d pid bid) :=
  match boards d !! bid as o
    return Decision (match o with Some b => projectId b = pid | None => False end)
  with
  | Some b => decide (projectId b = pid)
  | None => decide False
  end.

(** [prisma.project.delete({ where: { id } })]; the boards of the
    project go with it ([onDelete: Cascade] on [Board.project]) and the
    tasks of those boards with them. *)
Definition project_delete (id : string) (d : DB) : result DB :=
  match projects d !! id with
  | None => Err P2025
  | Some _ =>
    Ok (mkDB (delete id (projects d))
             (filter (λ kv, projectId kv.2 ≠ id) (boards d))
             (filter (λ kv, ¬ board_of_project d id (boardId kv.2)) (tasks d)))
  end.

(** [prisma.$transaction([...])]: the queries run in sequence; the first
    failure aborts the batch. *)
Fixpoint run_batch {A} (ops : list (DB → result (DB * A))) (d : DB)
    : result (DB * list A) :=
  match ops with
  | [] => Ok (d, [])
  | op :: rest =>
    match op d with
    | Err e => Err e
    | Ok (d1, a) =>
      match run_batch rest d1 with
      | Err e => Err e
      | Ok (d2, l) => Ok (d2, a :: l)
      end
    end
  end.

(** The database after [$transaction]: the batch's result when every
    query succeeded, the database as it was (rollback) otherwise. *)
Definition transaction {A} (ops : list (DB → result (DB * A))) (d : DB)
    : DB * result (list A) :=
  match run_batch ops d with
  | Ok (d', l) => (d', Ok l)
  | Err e => (d, Err e)
  end.

(** ** HTTP responses and real-time events *)

Inductive payload :=
  | Message (m : string)
  | BoardJson (row : string * Board)
  | TaskJson (row : string * Task)
  | BoardList (rows : list (string * Board))
  | TaskList (rows : list (string * Task))
  | IdJson (id : string)
  | NoContent.

Record response := mkResponse {
  status : nat;
  body : payload
}.

(** The Socket.IO server as a publish/subscribe capability: the
    connected sockets and, for each room, the sockets joined to it. The
    rooms are those the handlers below put sockets in (the private room
    Socket.IO keeps for each socket under the socket's own id is never
    addressed by a handler and is left out). *)
Record Io := mkIo {
  sockets : gset string;
  rooms : gmap string (gset string)
}.

Definition room (io : Io) (r : string) : gset string :=
  default ∅ (rooms io !! r).

(** [io.on('connection', (socket) => ...)] *)
Definition on_connection (sid : string) (io : Io) : Io :=
  mkIo ({[sid]} ∪ sockets io) (rooms io).

(** [socket.on('joinProject', (projectId) => socket.join(projectId))] *)
Definition joinProject (sid pid : string) (io : Io) : Io :=
  mkIo (sockets io) (<[pid := {[sid]} ∪ room io pid]> (rooms io)).

(** [socket.on('disconnect', ...)]: the socket leaves every room. *)
Definition disconnect (sid : string) (io : Io) : Io :=
  mkIo (sockets io ∖ {[sid]}) ((λ r, r ∖ {[sid]}) <$> rooms io).

(** [io.emit(...)] addresses every socket, [io.to(r).emit(...)] room [r]. *)
Inductive target :=
  | Everyone
  | Room (r : string).

Record emission := mkEmission {
  em_target : target;
  em_event : string;
  em_payload : payload
}.

Definition recipients (io : Io) (e : emission) : gset string :=
  match em_target e with
  | Everyone => sockets io
  | Room r => room io r
  end.

(** A socket receives event [ev] when some published emission of that
    name addresses it. *)
Definition receives (io : Io) (out : list emission) (ev sid : string) : Prop :=
  ∃ e, e ∈ out ∧ em_event e = ev ∧ sid ∈ recipients io e.

(** What a creating handler takes from its environment: the clock
    reading and the cuid drawn for the new row. *)
Record Env := mkEnv {
  now : Z;
  cuid : string
}.

(** ** Handlers *)

(** [POST /api/projects/:projectId/boards] of the real-time revision. *)
Definition post_boards_rt (env : Env) (pid : string) (name : field) (d : DB)
    : DB * response * list emission :=
  if truthy name then
    let lastBoard := findFirst_desc (boards d) pid in
    let newOrder := newOrder lastBoard in
    match board_create (cuid env) (now env) name pid newOrder d with
    | Ok (d', newBoard) =>
      (d', mkResponse 201 (BoardJson newBoard),
       [mkEmission (Room pid) "board:created" (BoardJson newBoard)])
    | Err _ => (d, mkResponse 500 (Message "Failed to create board"), [])
    end
  else (d, mkResponse 400 (Message "Board name is required"), []).

(** [POST /api/projects/:projectId/boards] of index.ts (no emit). *)
Definition post_boards (env : Env) (pid : string) (name : field) (d : DB)
    : DB * response :=
  if truthy name then
    let lastBoard := findFirst_desc (boards d) pid in
    let newOrder := newOrder lastBoard in
    match board_create (cuid env) (now env) name pid newOrder d with
    | Ok (d', newBoard) => (d', mkResponse 201 (BoardJson newBoard))
    | Err _ => (d, mkResponse 500 (Message "Failed to create board"))
    end
  else (d, mkResponse 400 (Message "Board name is required")).

(** [description || null] *)
Definition or_null (f : field) : field := if truthy f then f else Null.

(** [POST /api/boards/:boardId/tasks] (the same in both revisions). *)
Definition post_tasks (env : Env) (bid : string) (ttl desc : field) (d : DB)
    : DB * response :=
  if truthy ttl then
    let lastTask := findFirst_desc (tasks d) bid in
    let newOrder := newOrder lastTask in
    match task_create (cuid env) (now env) ttl (or_null desc) bid newOrder d with
    | Ok (d', newTask) => (d', mkResponse 201 (TaskJson newTask))
    | Err _ => (d, mkResponse 500 (Message "Failed to create task"))
    end
  else (d, mkResponse 400 (Message "Task title is required")).

(** [GET /api/boards/:boardId/tasks] *)
Definition get_tasks (bid : string) (d : DB) : response :=
  mkResponse 200 (TaskList (findMany_asc (tasks d) bid)).


(** [...(title && { title }), ...(description !== undefined && { description })]
    as Prisma's validation reads it: a truthy title and a description
    that is not [undefined] are written, and a value of either that is
    neither a string nor, for the description, null is refused. *)
Definition patch_task_data (ttl desc : field) : result TaskUpdateInput :=
  match (if truthy ttl then ttl else Absent), desc with
  | Other _, _ | _, Other _ => Err ValidationError
  | t, ds =>
    Ok (mkTaskData
          (text_of t)
          (match ds with Absent => None | _ => Some (text_of ds) end)
          None
          None)
  end.

(** [PATCH /api/tasks/:taskId] (the same in both revisions). *)
Definition patch_task (clock : Z) (taskId : string) (ttl desc : field) (d : DB)
    : DB * response :=
  match patch_task_data ttl desc with
  | Ok data =>
    match task_update (Str taskId) data clock d with
    | Ok (d', updatedTask) => (d', mkResponse 200 (TaskJson updatedTask))
    | Err _ => (d, mkResponse 500 (Message "Failed to update task"))
    end
  | Err _ => (d, mkResponse 500 (Message "Failed to update task"))
  end.

(** [DELETE /api/tasks/:taskId] *)
Definition delete_task (taskId : string) (d : DB) : DB * response :=
  match task_delete taskId d with
  | Ok d' => (d', mkResponse 204 NoContent)
  | Err _ => (d, mkResponse 500 (Message "Failed to delete task"))
  end.

(** [DELETE /api/boards/:boardId] *)
Definition delete_board (bid : string) (d : DB) : DB * response :=
  match board_delete bid d with
  | Ok d' => (d', mkResponse 204 NoContent)
  | Err _ => (d, mkResponse 500 (Message "Failed to delete board"))
  end.

(** [DELETE /api/projects/:projectId] of the real-time revision; index.ts
    is the same without the emit. *)
Definition delete_project (pid : string) (d : DB)
    : DB * response * list emission :=
  match project_delete pid d with
  | Ok d' =>
    (d', mkResponse 204 NoContent,
     [mkEmission Everyone "project:deleted" (IdJson pid)])
  | Err _ => (d, mkResponse 500 (Message "Failed to delete project"), [])
  end.

(** ** Reorder *)

(** An element of [orderedTasks]: a task object as the client holds it,
    of which the handlers read [id]; the object may also carry the board
    the client thinks the task is on. *)
Record TaskRef := mkRef {
  ref_id : field;
  ref_boardId : field
}.

(** An array element is [null] or an object. *)
Abbreviation element := (option TaskRef).

(** [const { boardId, orderedTasks } = req.body]; [None] stands for an
    [orderedTasks] that is not an array. *)
Record ReorderBody := mkReorder {
  rb_boardId : field;
  rb_orderedTasks : option (list element)
}.

(** [data: { order: index, boardId: boardId }] *)
Definition reorder_data (bid : string) (index : nat) : TaskUpdateInput :=
  mkTaskData None None (Some (Z.of_nat index)) (Some bid).

Definition query := DB → result (DB * (string * Task)).

(** The [orderedTasks.map((task, index) => ...)] of the POST handler:
    it throws at the first element without a truthy id; no query has
    run at that point, the promises are only collected. *)
Fixpoint updatePromises_post (bid : string) (clock : Z) (index : nat)
    (l : list element) : result (list query) :=
  match l with
  | [] => Ok []
  | task :: rest =>
    match task with
    | Some t =>
      if truthy (ref_id t) then
        match updatePromises_post bid clock (S index) rest with
        | Ok qs => Ok (task_update (ref_id t) (reorder_data bid index) clock :: qs)
        | Err e => Err e
        end
      else Err (JsError "Invalid task data provided.")
    | None => Err (JsError "Invalid task data provided.")
    end
  end.

(** The [orderedTasks.map((task, index) => ...)] of the PATCH handler:
    no check of the element; reading [task.id] of [null] is a
    TypeError. *)
Fixpoint updatePromises_patch (bid : string) (clock : Z) (index : nat)
    (l : list element) : result (list query) :=
  match l with
  | [] => Ok []
  | task :: rest =>
    match task with
    | Some t =>
      match updatePromises_patch bid clock (S index) rest with
      | Ok qs => Ok (task_update (ref_id t) (reorder_data bid index) clock :: qs)
      | Err e => Err e
      end
    | None => Err (JsError "Cannot read properties of null")
    end
  end.

(** [POST /api/tasks/reorder] (real-time revision). *)
Definition reorder_post (clock : Z) (rq : ReorderBody) (d : DB) : DB * response :=
  match truthy (rb_boardId rq), rb_orderedTasks rq with
  | true, Some orderedTasks =>
    if bool_decide (length orderedTasks = 0) then
      (d, mkResponse 200 (Message "No tasks to reorder."))
    else
      match rb_boardId rq with
      | Str bid =>
        match updatePromises_post bid clock 0 orderedTasks with
        | Err _ => (d, mkResponse 500 (Message "Failed to reorder tasks"))
        | Ok updatePromises =>
          match transaction updatePromises d with
          | (d', Ok _) => (d', mkResponse 200 (Message "Tasks reordered successfully"))
          | (d', Err _) => (d', mkResponse 500 (Message "Failed to reorder tasks"))
          end
        end
      | _ =>
        (* a [boardId] that is no string: the map throws, or Prisma's
           validation refuses the first update of the batch *)
        (d, mkResponse 500 (Message "Failed to reorder tasks"))
      end
  | _, _ =>
    (d, mkResponse 400 (Message "Board ID and an array of ordered tasks are required."))
  end.

(** [PATCH /api/task/reorder] (index.ts). *)
Definition reorder_patch (clock : Z) (rq : ReorderBody) (d : DB) : DB * response :=
  match truthy (rb_boardId rq), rb_orderedTasks rq with
  | true, Some orderedTasks =>
    match rb_boardId rq with
    | Str bid =>
      match updatePromises_patch bid clock 0 orderedTasks with
      | Err _ => (d, mkResponse 500 (Message "Failed to reorder tasks"))
      | Ok updatePromises =>
        match transaction updatePromises d with
        | (d', Ok _) => (d', mkResponse 200 (Message "Tasks reordered succesfully"))
        | (d', Err _) => (d', mkResponse 500 (Message "Failed to reorder tasks"))
        end
      end
    | _ =>
      (* a [boardId] that is no string: an empty batch commits; otherwise
         the map throws, or Prisma's validation refuses the first
         update *)
      if bool_decide (length orderedTasks = 0) then
        (d, mkResponse 200 (Message "Tasks reordered succesfully"))
      else (d, mkResponse 500 (Message "Failed to reorder tasks"))
    end
  | _, _ =>
    (d, mkResponse 400 (Message "Board ID and an array of ordered task are required"))
  end.

(** A handler run after another: the database of the first is the
    database of the second. *)
Definition serially {R} (hs : list (DB → DB * R)) (d : DB) : DB * list R :=
  foldl (λ acc h, let '(d', r) := h acc.1 in (d', acc.2 ++ [r])) (d, []) hs.

(** ** What the spec says the next order is *)

(** One greater than the maximum order among the children of [pid] in
    [tbl], or 0 when [pid] has no child. *)
Definition next_order_spec {A} `{Child A} (tbl : gmap string A) (pid : string)
    (n : Z) : Prop :=
  ((∀ k v, tbl !! k = Some v → parent_of v ≠ pid) ∧ n = 0%Z) ∨
  (∃ k v, tbl !! k = Some v ∧ parent_of v = pid ∧ n = (order_of v + 1)%Z ∧
     ∀ k' v', tbl !! k' = Some v' → parent_of v' = pid →
       (order_of v' ≤ order_of v)%Z).

(** ** Vocabulary of the reorder properties *)

(** Whether an element of [orderedTasks] carries a truthy id (among
    strings, a non-empty one). *)
Definition has_id (e : element) : bool :=
  match e with
  | Some t => truthy (ref_id t)
  | None => false
  end.

(** What a committed reorder has written, read off the request: the
    task named at position [i] (and at no later position) has order [i]
    and is on the board of the request. *)
Definition index_and_board_written (rq : ReorderBody) (d d' : DB) : Prop :=
  ∀ bid l i t k,
    rb_boardId rq = Str bid → rb_orderedTasks rq = Some l →
    l !! i = Some (Some t) → ref_id t = Str k →
    (∀ j t', i < j → l !! j = Some (Some t') → ref_id t' ≠ Str k) →
    ∃ old new, tasks d !! k = Some old ∧ tasks d' !! k = Some new ∧
      task_order new = Z.of_nat i ∧ boardId new = bid.

(** Two databases an update cannot tell apart as far as failing goes:
    the same boards and the same task ids. *)
Definition same_keys (d1 d2 : DB) : Prop :=
  boards d1 = boards d2 ∧ ∀ k, is_Some (tasks d1 !! k) ↔ is_Some (tasks d2 !! k).

(** The ids the elements of an [orderedTasks] array carry. *)
Definition id_of (e : element) : option field :=
  match e with
  | Some t => Some (ref_id t)
  | None => None
  end.

Definition ids_of (l : list element) : list (option field) :=
  id_of <$> l.

(** The children of [pid] in [tbl] are the rows named by [ks], the one
    at position [i] with order [i]. *)
Definition dense_children {A} `{Child A} (tbl : gmap string A) (pid : string)
    (ks : list string) : Prop :=
  NoDup ks ∧
  (∀ k v, tbl !! k = Some v → parent_of v = pid → k ∈ ks) ∧
  (∀ i k, ks !! i = Some k →
     ∃ v, tbl !! k = Some v ∧ parent_of v = pid ∧ order_of v = Z.of_nat i).

(** A run of board creations under one project, each with its
    environment and name; a run of task creations under one board, each
    with its environment, title and description. *)
Definition board_creations (pid : string) (reqs : list (Env * field))
    : list (DB → DB * response) :=
  (λ rq, post_boards rq.1 pid rq.2) <$> reqs.

Definition task_creations (bid : string) (reqs : list (Env * field * field))
    : list (DB → DB * response) :=
  (λ rq, post_tasks rq.1.1 bid rq.1.2 rq.2) <$> reqs.

(** ** A small database *)

(** Project p1 with boards b1 (tasks t1, t2 at orders 0, 1) and b2 (no
    task); project p2 without a board. *)
Definition demo_db : DB :=
  mkDB (<[ "p1" := mkProject "Demo" "u1" 0 0 ]>
          {[ "p2" := mkProject "Empty" "u1" 0 0 ]})
       (<[ "b1" := mkBoard "Todo" 0 "p1" 0 0 ]>
          {[ "b2" := mkBoard "Done" 1 "p1" 0 0 ]})
       (<[ "t1" := mkTask "Write" None 0 "b1" 0 0 ]>
          {[ "t2" := mkTask "Test" (Some "all of it") 1 "b1" 0 0 ]}).

Definition just_id (k : string) : element := Some (mkRef (Str k) Absent).

(** [{ boardId: 'b1', orderedTasks: [{id:'t2'}, {id:'nonexistent'}] }] *)
Definition rq_nonexistent : ReorderBody :=
  mkReorder (Str "b1") (Some [just_id "t2"; just_id "nonexistent"]).

(** [{ boardId: 'b1', orderedTasks: [{id:'t2'}, {}] }] *)
Definition rq_missing_id : ReorderBody :=
  mkReorder (Str "b1") (Some [just_id "t2"; Some (mkRef Absent Absent)]).

(** [{ boardId: 'b2', orderedTasks: [{id:'t1'}] }] *)
Definition rq_move : ReorderBody :=
  mkReorder (Str "b2") (Some [just_id "t1"]).

(** [{ boardId: 'b1', orderedTasks: [{id:'t2'}, {id:'t1'}] }] *)
Definition rq_swap : ReorderBody :=
  mkReorder (Str "b1") (Some [just_id "t2"; just_id "t1"]).

(** Two boards for p2 and two tasks for b2, with the clock reading and
    the cuid of each creation. *)
Definition demo_board_reqs : list (Env * field) :=
  [(mkEnv 1 "b3", Str "Backlog"); (mkEnv 2 "b4", Str "Doing")].

Definition demo_task_reqs : list (Env * field * field) :=
  [(mkEnv 3 "t3", Str "Ship", Absent); (mkEnv 4 "t4", Str "Rest", Null)].


(** Sockets s1 and s2 connected, s1 joined to p1 and s2 to p2. *)
Definition demo_io : Io :=
  joinProject "s2" "p2" (joinProject "s1" "p1"
    (on_connection "s2" (on_connection "s1" (mkIo ∅ ∅)))).

(** ** The remaining routes of index.ts *)

(** [prisma.board.update({ where: { id }, data: { name } })] *)
Definition board_update_name (id : string) (name : field) (clock : Z) (d : DB)
    : result (DB * (string * Board)) :=
  match name with
  | Str n =>
    if text_ok n then
      match boards d !! id with
      | None => Err P2025
      | Some b =>
        let row := mkBoard n (board_order b) (projectId b) (board_createdAt b) clock in
        Ok (mkDB (projects d) (<[id := row]> (boards d)) (tasks d), (id, row))
      end
    else Err Refused
  | _ => Err ValidationError
  end.

(** [PATCH /api/boards/:boardId] (the same in both revisions). *)
Definition patch_board (clock : Z) (bid : string) (name : field) (d : DB)
    : DB * response :=
  if truthy name then
    match board_update_name bid name clock d with
    | Ok (d', updatedBoard) => (d', mkResponse 200 (BoardJson updatedBoard))
    | Err _ => (d, mkResponse 500 (Message "Failed to update board"))
    end
  else (d, mkResponse 400 (Message "Board name is required")).

(** The [User] model: the id is the key, the email is unique. *)
Record User := mkUser {
  email : string;
  password : string;
  user_name : option string;
  user_createdAt : Z;
  user_updatedAt : Z
}.





Definition created_desc : relation (string * Project) :=
  λ x y, (project_createdAt y.2 ≤ project_createdAt x.2)%Z.

#[export] Instance created_desc_dec x y : Decision (created_desc x y) :=
  Z_le_dec (project_createdAt y.2) (project_createdAt x.2).




(** ** Registration and login *)

(** bcryptjs, as the handlers use it: [hash] draws a salt, [compare]
    checks a password against a stored hash; both reject a password
    that is no string. *)
Class Bcrypt := {
  bcrypt_hash : string → string → string;
  bcrypt_compare : string → string → bool
}.

(** [const { password: _, ...userWithoutPassword } = user] *)
Record PublicUser := mkPublicUser {
  pub_id : string;
  pub_email : string;
  pub_name : option string;
  pub_createdAt : Z;
  pub_updatedAt : Z
}.

Definition userWithoutPassword (row : string * User) : PublicUser :=
  mkPublicUser row.1 (email row.2) (user_name row.2)
               (user_createdAt row.2) (user_updatedAt row.2).

Inductive auth_payload :=
  | AuthMessage (m : string)
  | UserJson (u : PublicUser).

Record auth_response := mkAuthResponse {
  a_status : nat;
  a_body : auth_payload
}.

(** The user of an email. *)
Definition user_of_email (users : gmap string User) (e : string)
    : option (string * User) :=
  head (filter (λ kv, email kv.2 = e) (map_to_list users)).

(** [prisma.user.findUnique({ where: { email } })] *)
Definition user_findUnique (users : gmap string User) (e : field)
    : result (option (string * User)) :=
  match e with
  | Str e' => if text_ok e' then Ok (user_of_email users e') else Err Refused
  | _ => Err ValidationError
  end.

(** [prisma.user.create({ data: { email, password, name } })]; the
    password is the hash. *)
Definition user_create (id : string) (clock : Z) (e : field) (pw : string)
    (n : field) (users : gmap string User)
    : result (gmap string User * (string * User)) :=
  match e with
  | Str e' =>
    if text_ok e' && text_ok pw && nullable_text_ok n then
      match users !! id with
      | Some _ => Err P2002
      | None =>
        match user_of_email users e' with
        | Some _ => Err P2002
        | None =>
          let row := mkUser e' pw (text_of n) clock clock in
          Ok (<[id := row]> users, (id, row))
        end
      end
    else Err Refused
  | _ => Err ValidationError
  end.

(** [POST /api/register]; [salt] is the salt bcrypt draws. *)
Definition register `{Bcrypt} (env : Env) (salt : string) (e pw n : field)
    (users : gmap string User) : gmap string User * auth_response :=
  if truthy e && truthy pw && truthy n then
    match user_findUnique users e, pw with
    | Ok (Some existingUser), _ =>
      (users, mkAuthResponse 409 (AuthMessage "User with this email already exists"))
    | Ok None, Str pw' =>
      let hashedPassword := bcrypt_hash salt pw' in
      match user_create (cuid env) (now env) e hashedPassword n users with
      | Ok (users', user) =>
        (users', mkAuthResponse 201 (UserJson (userWithoutPassword user)))
      | Err _ =>
        (users, mkAuthResponse 500 (AuthMessage "An error occurred during registration"))
      end
    | _, _ =>
      (users, mkAuthResponse 500 (AuthMessage "An error occurred during registration"))
    end
  else (users, mkAuthResponse 400 (AuthMessage "All fields are required")).

(** [POST /api/login] *)
Definition login `{Bcrypt} (e pw : field) (users : gmap string User)
    : auth_response :=
  if truthy e && truthy pw then
    match user_findUnique users e, pw with
    | Ok None, _ => mkAuthResponse 401 (AuthMessage "Invalid credentials")
    | Ok (Some user), Str pw' =>
      if bcrypt_compare pw' (password user.2) then
        mkAuthResponse 200 (UserJson (userWithoutPassword user))
      else mkAuthResponse 401 (AuthMessage "Invalid credentials")
    | _, _ => mkAuthResponse 500 (AuthMessage "An error occurred during login")
    end
  else mkAuthResponse 400 (AuthMessage "Email and password are required").

(** No two users share an email ([@unique]). *)
Definition unique_emails (users : gmap string User) : Prop :=
  ∀ k1 u1 k2 u2, users !! k1 = Some u1 → users !! k2 = Some u2 →
    email u1 = email u2 → k1 = k2.

(** ** middleware/authenticate.ts *)

(** [s.split(sep)] for a one-character separator. *)
Fixpoint split_on (sep : ascii) (s : string) : list string :=
  match s with
  | EmptyString => [EmptyString]
  | String c rest =>
    if Ascii.eqb c sep then EmptyString :: split_on sep rest
    else
      match split_on sep rest with
      | w :: ws => String c w :: ws
      | [] => [String c EmptyString]
      end
  end.

(** [authHeader && authHeader.split(' ')[1]]; [None] is [undefined]. *)
Definition token_of (authHeader : option string) : option string :=
  match authHeader with
  | None => None
  | Some h =>
    if String.eqb h EmptyString then Some EmptyString
    else split_on " "%char h !! 1
  end.

(** What the middleware does with the request: it answers with a status,
    or calls [next()] with [req.user = { id: user.id }], whatever the
    decoded payload has for an id. *)
Inductive auth_outcome :=
  | Rejected (code : nat)
  | NextWith (user_id : field).

(** [authenticateToken]; [jwt_verify token secret] is the [id] of the
    decoded payload ([Absent] when the payload has none), or [None]
    when [jwt.verify] reports an error; [secret] is
    [process.env.NEXTAUTH_SECRET]. *)
Definition authenticateToken (jwt_verify : string → string → option field)
    (secret : option string) (authHeader : option string) : auth_outcome :=
  match token_of authHeader with
  | None => Rejected 401
  | Some token =>
    match secret with
    | None => Rejected 500
    | Some s =>
      if String.eqb s EmptyString then Rejected 500
      else
        match jwt_verify token s with
        | None => Rejected 403
        | Some id => NextWith id
        end
    end
  end.

(** ** Vocabulary of the further properties *)

(** Siblings have different orders. *)
Definition distinct_orders {A} `{Child A} (tbl : gmap string A) : Prop :=
  ∀ k1 v1 k2 v2, tbl !! k1 = Some v1 → tbl !! k2 = Some v2 →
    parent_of v1 = parent_of v2 → order_of v1 = order_of v2 → k1 = k2.

(** What a listing shows of a row as far as its place goes: the id and
    the order. *)
Definition key_order {A} `{Child A} (kv : string * A) : string * Z :=
  (kv.1, order_of kv.2).

(** Row [k] is a child of [pid] with order [o]. *)
Definition placed {A} `{Child A} (tbl : gmap string A) (pid k : string) (o : Z)
    : Prop :=
  ∃ v, tbl !! k = Some v ∧ parent_of v = pid ∧ order_of v = o.

(** One registered user. *)
Definition demo_users : gmap string User :=
  {[ "u1" := mkUser "ann@example.org" "salt:secret" (Some "Ann") 0 0 ]}.

(** A stand-in for bcrypt that meets its contract: the hash is the
    password, comparing is equality. *)
Definition plain_bcrypt : Bcrypt :=
  {| bcrypt_hash := λ _ pw, pw; bcrypt_compare := String.eqb |}.

(** A string without a space. *)
Fixpoint word (s : string) : bool :=
  match s with
  | EmptyString => true
  | String c rest => negb (Ascii.eqb c " "%char) && word rest
  end.

(** A task less its [updatedAt]. *)
Definition task_content (t : Task) : string * option string * Z * string * Z :=
  (title t, description t, task_order t, boardId t, task_createdAt t).

(** * Properties *)

(** Closed decidable facts about the small database are settled by
    evaluation. *)
Ltac by_evaluation := apply (bool_decide_unpack _); vm_compute; exact I.

(** ** Queries *)

Section QueryFacts.
Context {A : Type} `{Child A}.
Implicit Types (tbl : gmap string A) (pid : string).

#[local] Instance order_asc_trans : Transitive (order_asc (A:=A)).
Proof. intros x y z; unfold order_asc; lia. Qed.

#[local] Instance order_asc_total : Total (order_asc (A:=A)).
Proof. intros x y; unfold order_asc; lia. Qed.

#[local] Instance order_desc_trans : Transitive (order_desc (A:=A)).
Proof. intros x y z; unfold order_desc; lia. Qed.

#[local] Instance order_desc_total : Total (order_desc (A:=A)).
Proof. intros x y; unfold order_desc; lia. Qed.

Lemma elem_of_children tbl pid k v :
  (k, v) ∈ children tbl pid ↔ tbl !! k = Some v ∧ parent_of v = pid.
Proof.
  unfold children. rewrite list_elem_of_filter, elem_of_map_to_list. simpl. tauto.
Qed.

Lemma children_nil tbl pid :
  children tbl pid = [] ↔ ∀ k v, tbl !! k = Some v → parent_of v ≠ pid.
Proof.
  split.
  - intros Hnil k v Hk Hp.
    assert (Hin : (k, v) ∈ children tbl pid) by (by apply elem_of_children).
    rewrite Hnil in Hin. by apply elem_of_nil in Hin.
  - intros Hno. destruct (children tbl pid) as [|[k v] l] eqn:E; [done|].
    assert (Hin : (k, v) ∈ children tbl pid) by (rewrite E; left).
    apply elem_of_children in Hin as [Hk Hp]. by destruct (Hno k v Hk).
Qed.

Lemma NoDup_children_fst tbl pid : NoDup (children tbl pid).*1.
Proof.
  apply NoDup_fmap_fst.
  - intros k v1 v2 Hv1 Hv2. apply elem_of_children in Hv1, Hv2.
    destruct Hv1 as [Hv1 _], Hv2 as [Hv2 _]. congruence.
  - apply NoDup_filter, NoDup_map_to_list.
Qed.

Lemma elem_of_findMany_asc tbl pid k v :
  (k, v) ∈ findMany_asc tbl pid ↔ tbl !! k = Some v ∧ parent_of v = pid.
Proof.
  unfold findMany_asc. rewrite merge_sort_Permutation. apply elem_of_children.
Qed.

Lemma findFirst_desc_None tbl pid :
  findFirst_desc tbl pid = None ↔ ∀ k v, tbl !! k = Some v → parent_of v ≠ pid.
Proof.
  rewrite <- children_nil. unfold findFirst_desc.
  pose proof (merge_sort_Permutation order_desc (children tbl pid)) as Hp.
  split.
  - intros Hh. destruct (merge_sort order_desc (children tbl pid)); [|done].
    symmetry in Hp. by apply Permutation_nil_r in Hp.
  - intros Hnil. by rewrite Hnil.
Qed.

Lemma findFirst_desc_Some tbl pid k v :
  findFirst_desc tbl pid = Some (k, v) →
  tbl !! k = Some v ∧ parent_of v = pid ∧
  ∀ k' v', tbl !! k' = Some v' → parent_of v' = pid → (order_of v' ≤ order_of v)%Z.
Proof.
  unfold findFirst_desc. intros [l Hl]%head_Some.
  pose proof (merge_sort_Permutation order_desc (children tbl pid)) as Hp.
  pose proof (StronglySorted_merge_sort order_desc (children tbl pid)) as Hs.
  rewrite Hl in Hp, Hs.
  assert (Hin : (k, v) ∈ children tbl pid) by (rewrite <- Hp; left).
  apply elem_of_children in Hin as [Hk Hpar]. split_and!; [done..|].
  intros k' v' Hk' Hpar'.
  assert (Hin' : (k', v') ∈ (k, v) :: l).
  { rewrite Hp. by apply elem_of_children. }
  apply StronglySorted_cons in Hs as [Hall _].
  apply elem_of_cons in Hin' as [[= -> ->]|Hin']; [lia|].
  rewrite Forall_forall in Hall. apply (Hall _ Hin').
Qed.

(** [newOrder] of the row [findFirst] returns is the next order of the
    spec. *)
Lemma newOrder_next tbl pid :
  next_order_spec tbl pid (newOrder (findFirst_desc tbl pid)).
Proof.
  destruct (findFirst_desc tbl pid) as [[k v]|] eqn:E.
  - right. apply findFirst_desc_Some in E as (Hk & Hp & Hmax).
    exists k, v. by split_and!.
  - left. split; [by apply findFirst_desc_None|done].
Qed.

Lemma next_order_spec_unique tbl pid n m :
  next_order_spec tbl pid n → next_order_spec tbl pid m → n = m.
Proof.
  intros [[Hn ->]|(k & v & Hk & Hp & -> & Hmax)]
         [[Hm ->]|(k' & v' & Hk' & Hp' & -> & Hmax')]; try done.
  - by destruct (Hn _ _ Hk').
  - by destruct (Hm _ _ Hk).
  - specialize (Hmax _ _ Hk' Hp'). specialize (Hmax' _ _ Hk Hp). lia.
Qed.

Lemma Sorted_le_seqZ n : Sorted Z.le (seqZ 0 n).
Proof.
  unfold seqZ. apply (Sorted_fmap _ lt); [intros x y; lia|].
  generalize 0 as j. induction (Z.to_nat n) as [|m IH]; intros j; simpl.
  - constructor.
  - constructor; [apply IH|]. destruct m; simpl; constructor. lia.
Qed.

(** When the children of [pid] are the rows named by [ks], each with
    the order of its position, [findMany] lists them as [ks] does. *)
Lemma findMany_asc_indexed tbl pid (ks : list string) :
  NoDup ks →
  (∀ k v, tbl !! k = Some v → parent_of v = pid → k ∈ ks) →
  (∀ i k, ks !! i = Some k →
     ∃ v, tbl !! k = Some v ∧ parent_of v = pid ∧ order_of v = Z.of_nat i) →
  (findMany_asc tbl pid).*1 = ks ∧
  (order_of ∘ snd) <$> findMany_asc tbl pid = seqZ 0 (Z.of_nat (length ks)).
Proof.
  intros Hnd Hsub Hidx.
  remember (findMany_asc tbl pid) as L eqn:EL.
  assert (HL : ∀ k v, (k, v) ∈ L ↔ tbl !! k = Some v ∧ parent_of v = pid)
    by (intros; subst L; apply elem_of_findMany_asc).
  assert (Hpos : ∀ k v, (k, v) ∈ L →
            ∃ i, ks !! i = Some k ∧ order_of v = Z.of_nat i).
  { intros k v [Hk Hp]%HL. pose proof (Hsub k v Hk Hp) as Hin.
    apply list_elem_of_lookup in Hin as [i Hi].
    destruct (Hidx i k Hi) as (v' & Hk' & _ & Ho). exists i. split; [done|].
    congruence. }
  assert (HndL : NoDup L.*1).
  { subst L. unfold findMany_asc. rewrite merge_sort_Permutation.
    apply NoDup_children_fst. }
  assert (Hord : (order_of ∘ snd) <$> L = seqZ 0 (Z.of_nat (length ks))).
  { apply (Sorted_unique Z.le).
    - apply (Sorted_fmap _ order_asc); [done|]. subst L. apply Sorted_merge_sort, _.
    - apply Sorted_le_seqZ.
    - apply NoDup_Permutation.
      + apply NoDup_fmap_2_strong; [|by eapply NoDup_fmap_1].
        intros [k1 v1] [k2 v2] H1 H2 Ho. simpl in Ho.
        destruct (Hpos _ _ H1) as (i1 & Hi1 & Ho1).
        destruct (Hpos _ _ H2) as (i2 & Hi2 & Ho2).
        assert (i1 = i2) as -> by lia. assert (k1 = k2) as -> by congruence.
        apply HL in H1 as [H1 _], H2 as [H2 _]. congruence.
      + apply NoDup_seqZ.
      + intros z. rewrite list_elem_of_fmap, elem_of_seqZ. split.
        * intros ([k v] & -> & Hin). destruct (Hpos _ _ Hin) as (i & Hi & Ho).
          simpl. apply lookup_lt_Some in Hi. lia.
        * intros [Hz0 Hzn]. destruct (lookup_lt_is_Some_2 ks (Z.to_nat z)) as [k Hk]; [lia|].
          destruct (Hidx _ _ Hk) as (v & Hv & Hp & Ho). exists (k, v). simpl.
          split; [lia|]. by apply HL. }
  split; [|done].
  assert (Hlen : length L = length ks).
  { rewrite <- (length_fmap (order_of ∘ snd) L), Hord, length_seqZ. lia. }
  apply (list_eq_same_length _ _ (length ks)); [done|by rewrite length_fmap|].
  intros j k1 k2 Hj H1 H2.
  apply list_lookup_fmap_Some in H1 as ([k v] & -> & Hkv). simpl.
  assert (Ho : ((order_of ∘ snd) <$> L) !! j = Some (order_of v)).
  { by rewrite list_lookup_fmap, Hkv. }
  rewrite Hord in Ho. apply lookup_seqZ in Ho as [Ho _].
  destruct (Hpos k v) as (i & Hi & Ho'); [by eapply list_elem_of_lookup_2|].
  assert (i = j) as -> by lia. congruence.
Qed.

End QueryFacts.

(** ** Creation *)

Lemma truthy_Str_2 s : s ≠ EmptyString → truthy (Str s) = true.
Proof. intros Hs. simpl. by destruct s. Qed.

Lemma truthy_Str s : truthy (Str s) = true ↔ s ≠ EmptyString.
Proof.
  simpl. destruct (String.eqb s EmptyString) eqn:E; simpl.
  - apply String.eqb_eq in E. by split.
  - apply String.eqb_neq in E. by split.
Qed.

Lemma board_create_Ok id clock name pid order d d' row :
  board_create id clock name pid order d = Ok (d', row) →
  ∃ n, name = Str n ∧ (text_ok n = true ∧ int_ok order = true) ∧
    boards d !! id = None ∧ is_Some (projects d !! pid) ∧
    row = (id, mkBoard n order pid clock clock) ∧
    d' = mkDB (projects d) (<[id := row.2]> (boards d)) (tasks d).
Proof.
  unfold board_create. destruct name as [| |n|t]; try done.
  destruct (text_ok n) eqn:Et; [|done]. destruct (int_ok order) eqn:Ei; [|done].
  cbn [andb]. destruct (boards d !! id); [done|].
  destruct (projects d !! pid) eqn:Ep; [|done]. intros [= <- <-].
  exists n. by split_and!.
Qed.

Lemma task_create_Ok id clock ttl desc bid order d d' row :
  task_create id clock ttl desc bid order d = Ok (d', row) →
  ∃ t, ttl = Str t ∧
    (text_ok t = true ∧ nullable_text_ok desc = true ∧ int_ok order = true) ∧
    tasks d !! id = None ∧ is_Some (boards d !! bid) ∧
    row = (id, mkTask t (text_of desc) order bid clock clock) ∧
    d' = mkDB (projects d) (boards d) (<[id := row.2]> (tasks d)).
Proof.
  unfold task_create. destruct ttl as [| |t|b]; try done.
  destruct (text_ok t) eqn:Et; [|done].
  destruct (nullable_text_ok desc) eqn:En; [|done].
  destruct (int_ok order) eqn:Ei; [|done].
  cbn [andb]. destruct (tasks d !! id); [done|].
  destruct (boards d !! bid) eqn:Ep; [|done]. intros [= <- <-].
  exists t. by split_and!.
Qed.

(** What a 201 of the board-creation handler of index.ts tells. *)
Lemma post_boards_201 env pid name d d' r :
  post_boards env pid name d = (d', r) → status r = 201 →
  ∃ n, name = Str n ∧ n ≠ EmptyString ∧
    boards d !! cuid env = None ∧ is_Some (projects d !! pid) ∧
    let row := mkBoard n (newOrder (findFirst_desc (boards d) pid)) pid (now env) (now env) in
    r = mkResponse 201 (BoardJson (cuid env, row)) ∧
    d' = mkDB (projects d) (<[cuid env := row]> (boards d)) (tasks d).
Proof.
  unfold post_boards. destruct (truthy name) eqn:Et; [|by intros [= <- <-]].
  cbn zeta.
  destruct (board_create _ _ _ _ _ _) as [[d1 row]|e] eqn:Ec; [|by intros [= <- <-]].
  intros [= <- <-] _. apply board_create_Ok in Ec as (n & -> & _ & Hfresh & Hp & -> & ->).
  apply truthy_Str in Et. exists n. by split_and!.
Qed.

(** The real-time revision does to the database and answers what
    index.ts does. *)
Lemma post_boards_rt_fst env pid name d :
  (post_boards_rt env pid name d).1 = post_boards env pid name d.
Proof.
  unfold post_boards_rt, post_boards. destruct (truthy name); [|done].
  cbn zeta. by destruct (board_create _ _ _ _ _ _) as [[??]|?].
Qed.

Lemma post_tasks_201 env bid ttl desc d d' r :
  post_tasks env bid ttl desc d = (d', r) → status r = 201 →
  ∃ t, ttl = Str t ∧ t ≠ EmptyString ∧
    tasks d !! cuid env = None ∧ is_Some (boards d !! bid) ∧
    let row := mkTask t (text_of (or_null desc))
                      (newOrder (findFirst_desc (tasks d) bid)) bid
                      (now env) (now env) in
    r = mkResponse 201 (TaskJson (cuid env, row)) ∧
    d' = mkDB (projects d) (boards d) (<[cuid env := row]> (tasks d)).
Proof.
  unfold post_tasks. destruct (truthy ttl) eqn:Et; [|by intros [= <- <-]].
  cbn zeta.
  destruct (task_create _ _ _ _ _ _ _) as [[d1 row]|e] eqn:Ec; [|by intros [= <- <-]].
  intros [= <- <-] _. apply task_create_Ok in Ec as (n & -> & _ & Hfresh & Hp & -> & ->).
  apply truthy_Str in Et. exists n. by split_and!.
Qed.

(** A creation leaves the database as it was or adds the row. *)
Lemma post_boards_cases env pid name d :
  (post_boards env pid name d).1 = d ∨
  ∃ n, name = Str n ∧ boards d !! cuid env = None ∧ is_Some (projects d !! pid) ∧
    (post_boards env pid name d).1 =
      mkDB (projects d)
           (<[cuid env := mkBoard n (newOrder (findFirst_desc (boards d) pid)) pid
                            (now env) (now env)]> (boards d))
           (tasks d).
Proof.
  unfold post_boards. destruct (truthy name); [|by left]. cbn zeta.
  destruct (board_create _ _ _ _ _ _) as [[d' row]|] eqn:Ec; [|by left].
  apply board_create_Ok in Ec as (n & -> & _ & Hf & Hp & -> & ->).
  right. by exists n.
Qed.

Lemma post_tasks_cases env bid ttl desc d :
  (post_tasks env bid ttl desc d).1 = d ∨
  ∃ t, ttl = Str t ∧ tasks d !! cuid env = None ∧ is_Some (boards d !! bid) ∧
    (post_tasks env bid ttl desc d).1 =
      mkDB (projects d) (boards d)
           (<[cuid env := mkTask t (text_of (or_null desc))
                            (newOrder (findFirst_desc (tasks d) bid)) bid
                            (now env) (now env)]> (tasks d)).
Proof.
  unfold post_tasks. destruct (truthy ttl); [|by left]. cbn zeta.
  destruct (task_create _ _ _ _ _ _ _) as [[d' row]|] eqn:Ec; [|by left].
  apply task_create_Ok in Ec as (n & -> & _ & Hf & Hp & -> & ->).
  right. by exists n.
Qed.

(** C5. A created board (either revision of the handler) or task is
    stored under its parent with the order [next_order_spec] describes:
    one more than the greatest order among the parent's children as the
    handler read them, 0 when there is none. *)
Theorem create_assigns_next_order env parent name desc d :
  (∀ d' r, post_boards env parent name d = (d', r) → status r = 201 →
     ∃ row, body r = BoardJson (cuid env, row) ∧
       boards d' !! cuid env = Some row ∧ projectId row = parent ∧
       next_order_spec (boards d) parent (board_order row)) ∧
  (∀ d' r out, post_boards_rt env parent name d = (d', r, out) → status r = 201 →
     ∃ row, body r = BoardJson (cuid env, row) ∧
       boards d' !! cuid env = Some row ∧ projectId row = parent ∧
       next_order_spec (boards d) parent (board_order row)) ∧
  (∀ d' r, post_tasks env parent name desc d = (d', r) → status r = 201 →
     ∃ row, body r = TaskJson (cuid env, row) ∧
       tasks d' !! cuid env = Some row ∧ boardId row = parent ∧
       next_order_spec (tasks d) parent (task_order row)).
Proof.
  assert (Hb : ∀ d' r, post_boards env parent name d = (d', r) → status r = 201 →
     ∃ row, body r = BoardJson (cuid env, row) ∧
       boards d' !! cuid env = Some row ∧ projectId row = parent ∧
       next_order_spec (boards d) parent (board_order row)).
  { intros d' r Hrun Hst.
    destruct (post_boards_201 _ _ _ _ _ _ Hrun Hst) as (n & -> & _ & _ & _ & -> & ->).
    eexists. split_and!; [done| |done|].
    - simpl. apply lookup_insert_eq.
    - simpl. apply (newOrder_next (boards d) parent). }
  split_and!; [done| |].
  - intros d' r out Hrun. apply (Hb d' r).
    rewrite <- post_boards_rt_fst. by rewrite Hrun.
  - intros d' r Hrun Hst.
    destruct (post_tasks_201 _ _ _ _ _ _ _ Hrun Hst) as (n & -> & _ & _ & _ & -> & ->).
    eexists. split_and!; [done| |done|].
    + simpl. apply lookup_insert_eq.
    + simpl. apply (newOrder_next (tasks d) parent).
Qed.

Lemma create_assigns_next_order_witness :
  (∃ row, body (post_boards (mkEnv 7 "b3") "p1" (Str "Review") demo_db).2
            = BoardJson ("b3", row) ∧
     boards (post_boards (mkEnv 7 "b3") "p1" (Str "Review") demo_db).1 !! "b3"
       = Some row ∧
     projectId row = "p1" ∧
     next_order_spec (boards demo_db) "p1" (board_order row)) ∧
  (∃ row, body (post_boards_rt (mkEnv 7 "b3") "p1" (Str "Review") demo_db).1.2
            = BoardJson ("b3", row) ∧
     boards (post_boards_rt (mkEnv 7 "b3") "p1" (Str "Review") demo_db).1.1 !! "b3"
       = Some row ∧
     projectId row = "p1" ∧
     next_order_spec (boards demo_db) "p1" (board_order row)) ∧
  (∃ row, body (post_tasks (mkEnv 7 "t3") "b1" (Str "Review") Absent demo_db).2
            = TaskJson ("t3", row) ∧
     tasks (post_tasks (mkEnv 7 "t3") "b1" (Str "Review") Absent demo_db).1 !! "t3"
       = Some row ∧
     boardId row = "b1" ∧
     next_order_spec (tasks demo_db) "b1" (task_order row)).
Proof.
  split_and!.
  - apply (proj1 (create_assigns_next_order (mkEnv 7 "b3") "p1" (Str "Review")
                    Absent demo_db)).
    + apply surjective_pairing.
    + vm_compute. reflexivity.
  - apply (proj1 (proj2 (create_assigns_next_order (mkEnv 7 "b3") "p1"
                           (Str "Review") Absent demo_db))
             _ _ (post_boards_rt (mkEnv 7 "b3") "p1" (Str "Review") demo_db).2).
    + vm_compute. reflexivity.
    + vm_compute. reflexivity.
  - apply (proj2 (proj2 (create_assigns_next_order (mkEnv 7 "t3") "b1"
                           (Str "Review") Absent demo_db))).
    + apply surjective_pairing.
    + vm_compute. reflexivity.
Defined.

(** ** Updates and transactions *)

Lemma task_update_Ok w data clock d d' row :
  task_update w data clock d = Ok (d', row) →
  ∃ id old, w = Str id ∧ tasks d !! id = Some old ∧ board_key_ok data d = true ∧
    row = (id, apply_task_data data clock old) ∧
    d' = mkDB (projects d) (boards d) (<[id := row.2]> (tasks d)).
Proof.
  unfold task_update. destruct w as [| |id|t]; try done.
  destruct (tasks d !! id) as [old|] eqn:Eo; [|done].
  destruct (board_key_ok data d) eqn:Eb; [|done].
  destruct (data_ok data); [|done].
  intros [= <- <-]. exists id, old. by split_and!.
Qed.

Lemma task_update_is_ok w data clock d :
  is_ok (task_update w data clock d) = true ↔
  (∃ id, w = Str id ∧ is_Some (tasks d !! id)) ∧ board_key_ok data d = true ∧
  data_ok data = true.
Proof.
  unfold task_update. split.
  - destruct w as [| |id|t]; try done.
    destruct (tasks d !! id) as [old|] eqn:Eo; [|done].
    destruct (board_key_ok data d); [|done].
    destruct (data_ok data); [|done]. intros _. split; [|done]. by exists id.
  - intros ((id & -> & [old Ho]) & Hb & Hd). by rewrite Ho, Hb, Hd.
Qed.

(** The data of a reorder carries no text. *)
Lemma data_ok_reorder bid i : data_ok (reorder_data bid i) = true.
Proof. done. Qed.

(** What an update keeps of a row it does not move. *)
Lemma apply_task_data_place data clock t :
  set_order data = None → set_boardId data = None →
  task_order (apply_task_data data clock t) = task_order t ∧
  boardId (apply_task_data data clock t) = boardId t ∧
  task_createdAt (apply_task_data data clock t) = task_createdAt t.
Proof.
  intros Ho Hb. unfold apply_task_data.
  destruct (writes_nothing data); [done|]. simpl. by rewrite Ho, Hb.
Qed.

Lemma same_keys_refl d : same_keys d d.
Proof. by split. Qed.

Lemma same_keys_trans d1 d2 d3 : same_keys d1 d2 → same_keys d2 d3 → same_keys d1 d3.
Proof.
  intros [Hb1 Hk1] [Hb2 Hk2]. split; [congruence|]. intros k. by rewrite Hk1, Hk2.
Qed.

Lemma task_update_same_keys w data clock d d' row :
  task_update w data clock d = Ok (d', row) → same_keys d' d.
Proof.
  intros (id & old & -> & Ho & _ & -> & ->)%task_update_Ok. split; [done|].
  intros k. simpl. destruct (decide (id = k)) as [->|Hne].
  - rewrite lookup_insert_eq, Ho. split; eauto.
  - by rewrite lookup_insert_ne.
Qed.

Lemma task_update_is_ok_same_keys w data clock d1 d2 :
  same_keys d1 d2 →
  is_ok (task_update w data clock d1) = is_ok (task_update w data clock d2).
Proof.
  intros [Hb Hk]. apply eq_true_iff_eq. rewrite !task_update_is_ok.
  unfold board_key_ok. rewrite Hb. by setoid_rewrite Hk.
Qed.

(** The POST handler collects the queries the PATCH handler collects,
    when it collects any. *)
Lemma updatePromises_post_patch l : ∀ bid clock idx qs,
  updatePromises_post bid clock idx l = Ok qs →
  updatePromises_patch bid clock idx l = Ok qs.
Proof.
  induction l as [|[t|] l IH]; intros bid clock idx qs; simpl; try done.
  destruct (truthy (ref_id t)); [|done].
  destruct (updatePromises_post bid clock (S idx) l) as [qs'|] eqn:E; [|done].
  intros [= <-]. by rewrite (IH _ _ _ _ E).
Qed.

(** The batch of a list whose elements all carry a truthy id. *)
Lemma updatePromises_post_total l : ∀ bid clock idx,
  (∀ e, e ∈ l → ∃ t, e = Some t ∧ truthy (ref_id t) = true) →
  ∃ qs, updatePromises_post bid clock idx l = Ok qs.
Proof.
  induction l as [|e l IH]; intros bid clock idx Hall; simpl; [by eexists|].
  destruct (Hall e) as (t & -> & Ht); [left|]. rewrite Ht.
  destruct (IH bid clock (S idx)) as [qs ->]; [|by eexists].
  intros e He. apply Hall. by right.
Qed.

Lemma updatePromises_patch_total l : ∀ bid clock idx,
  (∀ e, e ∈ l → is_Some e) →
  ∃ qs, updatePromises_patch bid clock idx l = Ok qs.
Proof.
  induction l as [|e l IH]; intros bid clock idx Hall; simpl; [by eexists|].
  destruct (Hall e) as [t ->]; [left|].
  destruct (IH bid clock (S idx)) as [qs ->]; [|by eexists].
  intros e He. apply Hall. by right.
Qed.

(** The POST handler throws on an element without a truthy id. *)
Lemma updatePromises_post_throws l : ∀ bid clock idx e,
  e ∈ l → (∀ t, e = Some t → truthy (ref_id t) = false) →
  updatePromises_post bid clock idx l = Err (JsError "Invalid task data provided.").
Proof.
  induction l as [|e0 l IH]; intros bid clock idx e Hin Hbad; simpl.
  - by apply elem_of_nil in Hin.
  - destruct e0 as [t0|]; [|done].
    destruct (truthy (ref_id t0)) eqn:Et; [|done].
    apply elem_of_cons in Hin as [->|Hin].
    + rewrite (Hbad t0) in Et; done.
    + by rewrite (IH bid clock (S idx) e Hin Hbad).
Qed.

(** A batch with a query that fails on its own fails as a whole. *)
Lemma run_batch_patch_fails l : ∀ bid clock idx qs d d1 i t,
  updatePromises_patch bid clock idx l = Ok qs →
  l !! i = Some (Some t) →
  is_ok (task_update (ref_id t) (reorder_data bid (idx + i)) clock d) = false →
  same_keys d1 d →
  ∃ e, run_batch qs d1 = Err e.
Proof.
  induction l as [|[t0|] l IH]; intros bid clock idx qs d d1 i t; simpl; try done.
  destruct (updatePromises_patch bid clock (S idx) l) as [qs'|] eqn:E; [|done].
  intros [= <-] Hi Hfail Hsame. simpl.
  destruct (task_update (ref_id t0) _ clock d1) as [[d2 a]|e] eqn:Eu; [|by eexists].
  destruct i as [|i]; simpl in Hi.
  - injection Hi as ->. rewrite Nat.add_0_r in Hfail.
    rewrite <- (task_update_is_ok_same_keys _ _ _ _ _ Hsame), Eu in Hfail. done.
  - destruct (IH bid clock (S idx) qs' d d2 i t E Hi) as [e ->]; [| |by eexists].
    + by replace (S idx + i) with (idx + S i) by lia.
    + eapply same_keys_trans; [|done]. by eapply task_update_same_keys.
Qed.

(** A batch over existing tasks and an existing board commits. *)
Lemma run_batch_patch_commits l : ∀ bid clock idx qs d,
  updatePromises_patch bid clock idx l = Ok qs →
  is_Some (boards d !! bid) →
  (∀ t, Some t ∈ l → ∃ k, ref_id t = Str k ∧ is_Some (tasks d !! k)) →
  ∃ d' rs, run_batch qs d = Ok (d', rs).
Proof.
  induction l as [|[t0|] l IH]; intros bid clock idx qs d; simpl; try done.
  { intros [= <-] _ _. by eexists _, _. }
  destruct (updatePromises_patch bid clock (S idx) l) as [qs'|] eqn:E; [|done].
  intros [= <-] Hb Hall. simpl.
  destruct (task_update (ref_id t0) (reorder_data bid idx) clock d)
    as [[d1 a]|e] eqn:Eu.
  - pose proof (task_update_same_keys _ _ _ _ _ _ Eu) as [Hb1 Hk1].
    destruct (IH bid clock (S idx) qs' d1 E) as (d' & rs & ->); [..|by eexists _, _].
    + by rewrite Hb1.
    + intros t Ht. destruct (Hall t) as (k & Hk & Hsome); [by right|].
      exists k. split; [done|]. by apply Hk1.
  - assert (Hok : is_ok (task_update (ref_id t0) (reorder_data bid idx) clock d) = true).
    { apply task_update_is_ok. split; [|split; [|done]].
      - destruct (Hall t0) as (k & Hk & Hsome); [left|]. by exists k.
      - unfold board_key_ok. simpl. by apply bool_decide_eq_true. }
    by rewrite Eu in Hok.
Qed.

(** The database a committed batch leaves. *)
Lemma run_batch_patch_spec l : ∀ bid clock idx qs d d' rs,
  updatePromises_patch bid clock idx l = Ok qs →
  run_batch qs d = Ok (d', rs) →
  projects d' = projects d ∧ boards d' = boards d ∧
  (l ≠ [] → is_Some (boards d !! bid)) ∧
  (∀ e, e ∈ l → ∃ t k, e = Some t ∧ ref_id t = Str k ∧ is_Some (tasks d !! k)) ∧
  (∀ k, (∀ t, Some t ∈ l → ref_id t ≠ Str k) → tasks d' !! k = tasks d !! k) ∧
  (∀ i t k, l !! i = Some (Some t) → ref_id t = Str k →
     (∀ j t', i < j → l !! j = Some (Some t') → ref_id t' ≠ Str k) →
     ∃ old, tasks d !! k = Some old ∧
       tasks d' !! k = Some (apply_task_data (reorder_data bid (idx + i)) clock old)).
Proof.
  induction l as [|[t0|] l IH]; intros bid clock idx qs d d' rs; simpl; try done.
  { intros [= <-] [= <- <-]. split_and!; try done.
    intros e He. by apply elem_of_nil in He. }
  destruct (updatePromises_patch bid clock (S idx) l) as [qs'|] eqn:E; [|done].
  intros [= <-]. simpl.
  destruct (task_update (ref_id t0) (reorder_data bid idx) clock d)
    as [[d1 a]|e] eqn:Eu; [|done].
  destruct (run_batch qs' d1) as [[d2 rs']|e] eqn:Er; [|done].
  intros [= <- <-].
  apply task_update_Ok in Eu as (k0 & old0 & Hk0 & Hold0 & Hkey & -> & ->).
  destruct (IH bid clock (S idx) qs' _ _ _ E Er)
    as (Hp & Hb & _ & Hall & Hother & Hidx).
  simpl in *. split_and!; try done.
  - intros _. unfold board_key_ok in Hkey. simpl in Hkey.
    by apply bool_decide_eq_true in Hkey.
  - intros e [->|He]%elem_of_cons.
    + exists t0, k0. split_and!; [done..|]. by rewrite Hold0.
    + destruct (Hall e He) as (t & k & -> & Hk & Hsome). exists t, k.
      split_and!; [done..|].
      destruct (decide (k0 = k)) as [<-|Hne]; [by rewrite Hold0|].
      by rewrite lookup_insert_ne in Hsome.
  - intros k Hk. rewrite Hother.
    + apply lookup_insert_ne. intros ->. apply (Hk t0); [left|done].
    + intros t Ht. apply Hk. by right.
  - intros [|i] t k Hi Hid Hlast; simpl in Hi.
    + injection Hi as <-. assert (k = k0) as -> by congruence.
      exists old0. split; [done|]. rewrite Nat.add_0_r, Hother.
      * apply lookup_insert_eq.
      * intros t' [j Hj]%list_elem_of_lookup. apply (Hlast (S j)); [lia|done].
    + destruct (Hidx i t k Hi Hid) as (old1 & Hold1 & Hnew).
      { intros j t' Hlt Hj. apply (Hlast (S j)); [lia|done]. }
      replace (idx + S i) with (S idx + i) by lia.
      destruct (decide (k0 = k)) as [<-|Hne].
      * rewrite lookup_insert_eq in Hold1. injection Hold1 as <-.
        exists old0. split; [done|]. by rewrite Hnew.
      * rewrite lookup_insert_ne in Hold1 by done. by exists old1.
Qed.

(** The data of a task update: no order, no board. *)
Lemma patch_task_data_Ok ttl desc data :
  patch_task_data ttl desc = Ok data →
  set_order data = None ∧ set_boardId data = None.
Proof.
  unfold patch_task_data.
  destruct (if truthy ttl then ttl else Absent), desc; by intros [= <-].
Qed.

(** A task update leaves the database as it was or replaces the row by
    one with the same order, board and creation time. *)
Lemma patch_task_cases clock tid ttl desc d :
  (patch_task clock tid ttl desc d).1 = d ∨
  ∃ old new, tasks d !! tid = Some old ∧
    task_order new = task_order old ∧ boardId new = boardId old ∧
    task_createdAt new = task_createdAt old ∧
    patch_task clock tid ttl desc d =
      (mkDB (projects d) (boards d) (<[tid := new]> (tasks d)),
       mkResponse 200 (TaskJson (tid, new))).
Proof.
  unfold patch_task. destruct (patch_task_data ttl desc) as [data|] eqn:Ed; [|by left].
  destruct (task_update _ _ _ _) as [[d' row]|] eqn:Eu; [|by left].
  apply task_update_Ok in Eu as (k & old & [= <-] & Hold & _ & -> & ->).
  apply patch_task_data_Ok in Ed as [Ho Hb].
  destruct (apply_task_data_place data clock old Ho Hb) as (? & ? & ?).
  right. by exists old, (apply_task_data data clock old).
Qed.

(** A rename leaves the database as it was or replaces the name and
    [updatedAt] of the row. *)
Lemma patch_board_cases clock bid name d :
  (patch_board clock bid name d).1 = d ∨
  ∃ n old, name = Str n ∧ boards d !! bid = Some old ∧
    patch_board clock bid name d =
      let row := mkBoard n (board_order old) (projectId old) (board_createdAt old) clock in
      (mkDB (projects d) (<[bid := row]> (boards d)) (tasks d),
       mkResponse 200 (BoardJson (bid, row))).
Proof.
  unfold patch_board. destruct (truthy name); [|by left].
  unfold board_update_name. destruct name as [| |n|t]; try by left.
  destruct (text_ok n); [|by left].
  destruct (boards d !! bid) as [old|] eqn:Eo; [|by left].
  right. by exists n, old.
Qed.



(** ** The two reorder handlers, case by case *)

(** What a request that passes the first check looks like. *)
Lemma reorder_post_unfold clock bid l d :
  bid ≠ EmptyString →
  reorder_post clock (mkReorder (Str bid) (Some l)) d =
    if bool_decide (length l = 0) then
      (d, mkResponse 200 (Message "No tasks to reorder."))
    else
      match updatePromises_post bid clock 0 l with
      | Err _ => (d, mkResponse 500 (Message "Failed to reorder tasks"))
      | Ok qs =>
        match run_batch qs d with
        | Ok (d', _) => (d', mkResponse 200 (Message "Tasks reordered successfully"))
        | Err _ => (d, mkResponse 500 (Message "Failed to reorder tasks"))
        end
      end.
Proof.
  intros Hb. unfold reorder_post. cbn [rb_orderedTasks rb_boardId].
  rewrite (truthy_Str_2 bid Hb).
  destruct (bool_decide (length l = 0)); [done|].
  destruct (updatePromises_post bid clock 0 l) as [qs|]; [|done].
  unfold transaction. by destruct (run_batch qs d) as [[??]|].
Qed.

Lemma reorder_patch_unfold clock bid l d :
  bid ≠ EmptyString →
  reorder_patch clock (mkReorder (Str bid) (Some l)) d =
    match updatePromises_patch bid clock 0 l with
    | Err _ => (d, mkResponse 500 (Message "Failed to reorder tasks"))
    | Ok qs =>
      match run_batch qs d with
      | Ok (d', _) => (d', mkResponse 200 (Message "Tasks reordered succesfully"))
      | Err _ => (d, mkResponse 500 (Message "Failed to reorder tasks"))
      end
    end.
Proof.
  intros Hb. unfold reorder_patch. cbn [rb_orderedTasks rb_boardId].
  rewrite (truthy_Str_2 bid Hb).
  destruct (updatePromises_patch bid clock 0 l) as [qs|]; [|done].
  unfold transaction. by destruct (run_batch qs d) as [[??]|].
Qed.

(** Any answer of a reorder handler other than 200 comes with the
    database as it was. *)
Lemma reorder_post_not_200 clock rq d :
  status (reorder_post clock rq d).2 ≠ 200 → (reorder_post clock rq d).1 = d.
Proof.
  unfold reorder_post. destruct (truthy (rb_boardId rq)); [|done].
  destruct (rb_orderedTasks rq) as [l|]; [|done].
  destruct (bool_decide (length l = 0)); [done|].
  destruct (rb_boardId rq) as [| |bid|t]; try done.
  destruct (updatePromises_post bid clock 0 l) as [qs|]; [|done].
  unfold transaction. by destruct (run_batch qs d) as [[??]|].
Qed.

Lemma reorder_patch_not_200 clock rq d :
  status (reorder_patch clock rq d).2 ≠ 200 → (reorder_patch clock rq d).1 = d.
Proof.
  unfold reorder_patch. destruct (truthy (rb_boardId rq)); [|done].
  destruct (rb_orderedTasks rq) as [l|]; [|done].
  destruct (rb_boardId rq) as [| |bid|t];
    try by destruct (bool_decide (length l = 0)).
  destruct (updatePromises_patch bid clock 0 l) as [qs|]; [|done].
  unfold transaction. by destruct (run_batch qs d) as [[??]|].
Qed.

(** What a 200 of a reorder handler tells: the request has a truthy
    board id and an array, and the batch of the array committed; the
    board id is a string unless the array is empty. *)
Lemma reorder_post_200 clock rq d :
  status (reorder_post clock rq d).2 = 200 →
  ∃ bid l qs rs,
    (rb_boardId rq = Str bid ∧ bid ≠ EmptyString ∨
     l = [] ∧ truthy (rb_boardId rq) = true ∧ ∀ b, rb_boardId rq ≠ Str b) ∧
    rb_orderedTasks rq = Some l ∧
    updatePromises_patch bid clock 0 l = Ok qs ∧
    run_batch qs d = Ok ((reorder_post clock rq d).1, rs).
Proof.
  unfold reorder_post.
  destruct (truthy (rb_boardId rq)) eqn:Et; [|done].
  destruct (rb_orderedTasks rq) as [l|]; [|done].
  destruct (bool_decide (length l = 0)) eqn:El.
  { apply bool_decide_eq_true, length_zero_iff_nil in El as ->. intros _.
    destruct (rb_boardId rq) as [| |bid|t] eqn:Eb; try done.
    - apply truthy_Str in Et. exists bid, [], [], []. split_and!; try done. by left.
    - exists EmptyString, [], [], []. split_and!; try done. by right. }
  destruct (rb_boardId rq) as [| |bid|t]; try done.
  apply truthy_Str in Et.
  destruct (updatePromises_post bid clock 0 l) as [qs|] eqn:Eq; [|done].
  apply updatePromises_post_patch in Eq.
  unfold transaction. destruct (run_batch qs d) as [[d' rs]|] eqn:Er; [|done].
  intros _. exists bid, l, qs, rs. split_and!; try done. by left.
Qed.

Lemma reorder_patch_200 clock rq d :
  status (reorder_patch clock rq d).2 = 200 →
  ∃ bid l qs rs,
    (rb_boardId rq = Str bid ∧ bid ≠ EmptyString ∨
     l = [] ∧ truthy (rb_boardId rq) = true ∧ ∀ b, rb_boardId rq ≠ Str b) ∧
    rb_orderedTasks rq = Some l ∧
    updatePromises_patch bid clock 0 l = Ok qs ∧
    run_batch qs d = Ok ((reorder_patch clock rq d).1, rs).
Proof.
  unfold reorder_patch.
  destruct (truthy (rb_boardId rq)) eqn:Et; [|done].
  destruct (rb_orderedTasks rq) as [l|]; [|done].
  destruct (rb_boardId rq) as [| |bid|t] eqn:Eb; try done.
  - apply truthy_Str in Et.
    destruct (updatePromises_patch bid clock 0 l) as [qs|] eqn:Eq; [|done].
    unfold transaction. destruct (run_batch qs d) as [[d' rs]|] eqn:Er; [|done].
    intros _. exists bid, l, qs, rs. split_and!; try done. by left.
  - destruct (bool_decide (length l = 0)) eqn:El; [|done].
    apply bool_decide_eq_true, length_zero_iff_nil in El as ->. intros _.
    exists EmptyString, [], [], []. split_and!; try done. by right.
Qed.

(** The PATCH handler collects queries only from a list without
    [null]. *)
Lemma updatePromises_patch_Ok_elem l : ∀ bid clock idx qs e,
  updatePromises_patch bid clock idx l = Ok qs → e ∈ l → is_Some e.
Proof.
  induction l as [|[t0|] l IH]; intros bid clock idx qs e; simpl; try done.
  - by intros _ ?%elem_of_nil.
  - destruct (updatePromises_patch bid clock (S idx) l) as [qs'|] eqn:E; [|done].
    intros _ [->|He]%elem_of_cons; [done|]. by eapply IH.
Qed.

(** ** Reorder: failure *)

(** C1. A reorder request (either handler) that is not answered 200
    leaves the database, hence every task's order and board, as it was;
    and when the update of some element of the batch fails on its own
    (its task does not exist, or the board of the request does not), the
    request is answered 500 and the database is as it was. *)
Theorem reorder_all_or_nothing clock rq d :
  (status (reorder_post clock rq d).2 ≠ 200 → (reorder_post clock rq d).1 = d) ∧
  (status (reorder_patch clock rq d).2 ≠ 200 → (reorder_patch clock rq d).1 = d) ∧
  (∀ bid l i t,
     rb_boardId rq = Str bid → bid ≠ EmptyString → rb_orderedTasks rq = Some l →
     l !! i = Some (Some t) →
     is_ok (task_update (ref_id t) (reorder_data bid i) clock d) = false →
     reorder_post clock rq d = (d, mkResponse 500 (Message "Failed to reorder tasks")) ∧
     reorder_patch clock rq d = (d, mkResponse 500 (Message "Failed to reorder tasks"))).
Proof.
  split_and!; [apply reorder_post_not_200|apply reorder_patch_not_200|].
  intros bid l i t Hbid Hne Hl Hi Hfail. destruct rq as [b ol]. simpl in *. subst.
  rewrite reorder_post_unfold, reorder_patch_unfold by done.
  assert (Hlen : bool_decide (length l = 0) = false).
  { apply bool_decide_eq_false. intros ->%length_zero_iff_nil. done. }
  rewrite Hlen. split.
  - destruct (updatePromises_post bid clock 0 l) as [qs|] eqn:Eq; [|done].
    apply updatePromises_post_patch in Eq.
    destruct (run_batch_patch_fails l bid clock 0 qs d d i t Eq Hi Hfail
                (same_keys_refl d)) as [e ->]. done.
  - destruct (updatePromises_patch bid clock 0 l) as [qs|] eqn:Eq; [|done].
    destruct (run_batch_patch_fails l bid clock 0 qs d d i t Eq Hi Hfail
                (same_keys_refl d)) as [e ->]. done.
Qed.

(** The example of the spec: tasks [t1:0, t2:1] of board b1 and the
    request [t2, nonexistent]. *)
Lemma reorder_all_or_nothing_witness :
  (reorder_post 9 rq_nonexistent demo_db).1 = demo_db ∧
  (reorder_patch 9 rq_nonexistent demo_db).1 = demo_db ∧
  reorder_post 9 rq_nonexistent demo_db
    = (demo_db, mkResponse 500 (Message "Failed to reorder tasks")) ∧
  reorder_patch 9 rq_nonexistent demo_db
    = (demo_db, mkResponse 500 (Message "Failed to reorder tasks")).
Proof.
  destruct (reorder_all_or_nothing 9 rq_nonexistent demo_db) as (Hpost & Hpatch & Hone).
  split_and!.
  - apply Hpost. vm_compute. discriminate.
  - apply Hpatch. vm_compute. discriminate.
  - apply (Hone "b1" [just_id "t2"; just_id "nonexistent"] 1
             (mkRef (Str "nonexistent") Absent)).
    + reflexivity.
    + discriminate.
    + reflexivity.
    + reflexivity.
    + vm_compute. reflexivity.
  - apply (Hone "b1" [just_id "t2"; just_id "nonexistent"] 1
             (mkRef (Str "nonexistent") Absent)).
    + reflexivity.
    + discriminate.
    + reflexivity.
    + reflexivity.
    + vm_compute. reflexivity.
Defined.

(** C3, as the code has it. A reorder request with a non-empty board id
    whose array has an element without a non-empty id is answered 500
    (the answer of any failed reorder) and changes nothing: by the POST
    handler always, by the PATCH handler when no task is stored under
    the empty id. *)
Theorem reorder_missing_id_fails clock bid l e d :
  bid ≠ EmptyString → e ∈ l → has_id e = false →
  reorder_post clock (mkReorder (Str bid) (Some l)) d
    = (d, mkResponse 500 (Message "Failed to reorder tasks")) ∧
  (tasks d !! EmptyString = None →
   reorder_patch clock (mkReorder (Str bid) (Some l)) d
    = (d, mkResponse 500 (Message "Failed to reorder tasks"))).
Proof.
  intros Hbid Hin Hbad.
  rewrite reorder_post_unfold, reorder_patch_unfold by done.
  assert (Hlen : bool_decide (length l = 0) = false).
  { apply bool_decide_eq_false. intros ->%length_zero_iff_nil.
    by apply elem_of_nil in Hin. }
  rewrite Hlen. split.
  - rewrite (updatePromises_post_throws l bid clock 0 e Hin); [done|].
    intros t ->. done.
  - intros Hempty.
    destruct (updatePromises_patch bid clock 0 l) as [qs|] eqn:Eq; [|done].
    destruct (updatePromises_patch_Ok_elem _ _ _ _ _ _ Eq Hin) as [t ->].
    apply list_elem_of_lookup in Hin as [i Hi].
    destruct (run_batch_patch_fails l bid clock 0 qs d d i t Eq Hi) as [err ->];
      [|apply same_keys_refl|done].
    apply not_true_is_false. rewrite task_update_is_ok.
    intros [(k & Hk & Hsome) _]. simpl in Hbad. rewrite Hk in Hbad. simpl in Hbad.
    apply negb_false_iff, String.eqb_eq in Hbad as ->.
    rewrite Hempty in Hsome. by destruct Hsome.
Qed.

Lemma reorder_missing_id_fails_witness :
  reorder_post 9 rq_missing_id demo_db
    = (demo_db, mkResponse 500 (Message "Failed to reorder tasks")) ∧
  reorder_patch 9 rq_missing_id demo_db
    = (demo_db, mkResponse 500 (Message "Failed to reorder tasks")).
Proof.
  destruct (reorder_missing_id_fails 9 "b1"
              [just_id "t2"; Some (mkRef Absent Absent)] (Some (mkRef Absent Absent))
              demo_db) as [Hpost Hpatch].
  - discriminate.
  - right. left.
  - reflexivity.
  - split; [exact Hpost|]. apply Hpatch. vm_compute. reflexivity.
Defined.

(** C3 as stated fails: the answer to an element without an id is 500,
    which is no 4xx. *)
Lemma reorder_missing_id_not_4xx :
  has_id (Some (mkRef Absent Absent)) = false ∧
  status (reorder_post 9 rq_missing_id demo_db).2 = 500 ∧
  status (reorder_patch 9 rq_missing_id demo_db).2 = 500 ∧
  ¬ (400 ≤ status (reorder_post 9 rq_missing_id demo_db).2 < 500).
Proof. vm_compute. split_and!; try reflexivity. intros [_ H]. lia. Qed.

(** ** Reorder: what is written *)

(** C4, as the code has it. A committed reorder (either handler) gives
    the task named at position [i] the order [i] and puts it on the
    board of the request, whether or not the element carries a board of
    its own (when an id is named several times, its last position
    counts). *)
Theorem reorder_writes_index_and_request_board clock rq d :
  (status (reorder_post clock rq d).2 = 200 →
   index_and_board_written rq d (reorder_post clock rq d).1) ∧
  (status (reorder_patch clock rq d).2 = 200 →
   index_and_board_written rq d (reorder_patch clock rq d).1).
Proof.
  split.
  - intros (bid & l & qs & rs & Hb & Hl & Hq & Hr)%reorder_post_200.
    intros bid' l' i t k Hb' Hl' Hi Hk Hlast.
    destruct Hb as [[Hb _]|(_ & _ & Hno)]; [|by destruct (Hno _ Hb')].
    assert (bid' = bid) as -> by congruence. assert (l' = l) as -> by congruence.
    destruct (run_batch_patch_spec _ _ _ _ _ _ _ _ Hq Hr) as (_ & _ & _ & _ & _ & Hidx).
    destruct (Hidx i t k Hi Hk Hlast) as (old & Hold & Hnew).
    by exists old, (apply_task_data (reorder_data bid (0 + i)) clock old).
  - intros (bid & l & qs & rs & Hb & Hl & Hq & Hr)%reorder_patch_200.
    intros bid' l' i t k Hb' Hl' Hi Hk Hlast.
    destruct Hb as [[Hb _]|(_ & _ & Hno)]; [|by destruct (Hno _ Hb')].
    assert (bid' = bid) as -> by congruence. assert (l' = l) as -> by congruence.
    destruct (run_batch_patch_spec _ _ _ _ _ _ _ _ Hq Hr) as (_ & _ & _ & _ & _ & Hidx).
    destruct (Hidx i t k Hi Hk Hlast) as (old & Hold & Hnew).
    by exists old, (apply_task_data (reorder_data bid (0 + i)) clock old).
Qed.

Lemma reorder_writes_index_and_request_board_witness :
  index_and_board_written rq_swap demo_db (reorder_post 9 rq_swap demo_db).1 ∧
  index_and_board_written rq_move demo_db (reorder_patch 9 rq_move demo_db).1.
Proof.
  split.
  - apply (proj1 (reorder_writes_index_and_request_board 9 rq_swap demo_db)).
    vm_compute. reflexivity.
  - apply (proj2 (reorder_writes_index_and_request_board 9 rq_move demo_db)).
    vm_compute. reflexivity.
Defined.

(** C4 as stated fails: the element [{id:'t1'}] carries no board, task
    t1 is on b1, and the committed reorder with [boardId: 'b2'] leaves
    it on b2. *)
Lemma reorder_reparents_without_reference :
  rb_orderedTasks rq_move = Some [Some (mkRef (Str "t1") Absent)] ∧
  boardId <$> tasks demo_db !! "t1" = Some "b1" ∧
  status (reorder_post 9 rq_move demo_db).2 = 200 ∧
  boardId <$> tasks (reorder_post 9 rq_move demo_db).1 !! "t1" = Some "b2" ∧
  status (reorder_patch 9 rq_move demo_db).2 = 200 ∧
  boardId <$> tasks (reorder_patch 9 rq_move demo_db).1 !! "t1" = Some "b2".
Proof. vm_compute. by split_and!. Qed.

(** C7. A reorder request with a non-empty board id and an empty array
    is answered 200 by either handler and leaves the database, hence
    every task's order and board, as it was. *)
Theorem reorder_empty_is_noop clock bid d :
  bid ≠ EmptyString →
  reorder_post clock (mkReorder (Str bid) (Some [])) d
    = (d, mkResponse 200 (Message "No tasks to reorder.")) ∧
  reorder_patch clock (mkReorder (Str bid) (Some [])) d
    = (d, mkResponse 200 (Message "Tasks reordered succesfully")).
Proof.
  intros Hbid. by rewrite reorder_post_unfold, reorder_patch_unfold.
Qed.

Lemma reorder_empty_is_noop_witness :
  reorder_post 9 (mkReorder (Str "b1") (Some [])) demo_db
    = (demo_db, mkResponse 200 (Message "No tasks to reorder.")) ∧
  reorder_patch 9 (mkReorder (Str "b1") (Some [])) demo_db
    = (demo_db, mkResponse 200 (Message "Tasks reordered succesfully")).
Proof. apply (reorder_empty_is_noop 9 "b1" demo_db). discriminate. Defined.

(** ** Reorder: a permutation of the siblings *)

Section Permutation.
Context (bid : string) (ks : list string) (l : list element) (d : DB).
Hypothesis board_exists : is_Some (boards d !! bid).
Hypothesis ids_distinct : NoDup ks.
Hypothesis ids_are_the_siblings :
  ∀ k, k ∈ ks ↔ ∃ t, tasks d !! k = Some t ∧ boardId t = bid.
Hypothesis elements_carry_ids : ids_of l = (Some ∘ Str) <$> ks.

Lemma element_at i k :
  ks !! i = Some k → ∃ t, l !! i = Some (Some t) ∧ ref_id t = Str k.
Proof.
  intros Hk. pose proof (f_equal (.!! i) elements_carry_ids) as E.
  unfold ids_of, id_of in E. rewrite !list_lookup_fmap, Hk in E. simpl in E.
  destruct (l !! i) as [[t|]|]; simplify_eq/=. by exists t.
Qed.

Lemma id_at i t :
  l !! i = Some (Some t) → ∃ k, ref_id t = Str k ∧ ks !! i = Some k.
Proof.
  intros Ht. pose proof (f_equal (.!! i) elements_carry_ids) as E.
  unfold ids_of, id_of in E. rewrite !list_lookup_fmap, Ht in E. simpl in E.
  destruct (ks !! i) as [k|]; simplify_eq/=. by exists k.
Qed.

Lemma element_is_object e : e ∈ l → ∃ t k, e = Some t ∧ ref_id t = Str k ∧ k ∈ ks.
Proof.
  intros [i Hi]%list_elem_of_lookup.
  pose proof (f_equal (.!! i) elements_carry_ids) as E.
  unfold ids_of, id_of in E. rewrite !list_lookup_fmap, Hi in E. simpl in E.
  destruct (ks !! i) as [k|] eqn:Ek; simplify_eq/=. destruct e as [t|]; simplify_eq/=.
  exists t, k. split_and!; [done..|]. by eapply list_elem_of_lookup_2.
Qed.

(** The batch of such a request commits. *)
Lemma permutation_batch_commits clock qs :
  updatePromises_patch bid clock 0 l = Ok qs → ∃ d' rs, run_batch qs d = Ok (d', rs).
Proof.
  intros Hq. apply (run_batch_patch_commits l bid clock 0 qs d Hq board_exists).
  intros t (t' & k & [= <-] & Hk & Hin)%element_is_object. exists k. split; [done|].
  apply ids_are_the_siblings in Hin as (row & -> & _). by eexists.
Qed.

(** After the commit each task has the order of its position, and the
    tasks of the board are listed as submitted. *)
Lemma permutation_batch_listed clock qs d' rs :
  updatePromises_patch bid clock 0 l = Ok qs → run_batch qs d = Ok (d', rs) →
  (∀ i k, ks !! i = Some k →
     ∃ t, tasks d' !! k = Some t ∧ task_order t = Z.of_nat i ∧ boardId t = bid) ∧
  ∃ rows, get_tasks bid d' = mkResponse 200 (TaskList rows) ∧ rows.*1 = ks ∧
    (task_order ∘ snd) <$> rows = seqZ 0 (Z.of_nat (length ks)).
Proof.
  intros Hq Hr.
  destruct (run_batch_patch_spec _ _ _ _ _ _ _ _ Hq Hr)
    as (_ & _ & _ & _ & Hother & Hidx).
  assert (Hpos : ∀ i k, ks !! i = Some k →
     ∃ t, tasks d' !! k = Some t ∧ task_order t = Z.of_nat i ∧ boardId t = bid).
  { intros i k Hk. destruct (element_at i k Hk) as (t & Hi & Hid).
    destruct (Hidx i t k Hi Hid) as (old & _ & Hnew).
    - intros j t' Hlt Hj Hid'. destruct (id_at j t' Hj) as (k' & Hk' & Hkj).
      assert (k' = k) as -> by congruence.
      pose proof (NoDup_lookup ks i j k ids_distinct Hk Hkj). lia.
    - eexists. split; [exact Hnew|]. done. }
  split; [done|]. eexists. split; [done|].
  refine (findMany_asc_indexed (tasks d') bid ks ids_distinct _ _).
  - intros k v Hk Hb. destruct (decide (k ∈ ks)) as [|Hout]; [done|].
    rewrite Hother in Hk.
    + apply ids_are_the_siblings. by exists v.
    + intros t (t' & k' & [= <-] & Hk' & Hin)%element_is_object. congruence.
  - intros i k Hk. destruct (Hpos i k Hk) as (t & Ht & Ho & Hb). by exists t.
Qed.

End Permutation.

(** C2. When the array of a reorder request names, each once, exactly
    the tasks of an existing board, the POST handler answers 200, each
    task then has the 0-based position of its id as its order, and GET
    of the board's tasks lists them in the submitted sequence (orders
    0, 1, ..., K-1 ascending). *)
Theorem reorder_permutation_listed clock bid (ks : list string) l d :
  bid ≠ EmptyString → EmptyString ∉ ks →
  is_Some (boards d !! bid) →
  NoDup ks →
  (∀ k, k ∈ ks ↔ ∃ t, tasks d !! k = Some t ∧ boardId t = bid) →
  ids_of l = (Some ∘ Str) <$> ks →
  let rq := mkReorder (Str bid) (Some l) in
  let d' := (reorder_post clock rq d).1 in
  status (reorder_post clock rq d).2 = 200 ∧
  (∀ i k, ks !! i = Some k →
     ∃ t, tasks d' !! k = Some t ∧ task_order t = Z.of_nat i ∧ boardId t = bid) ∧
  ∃ rows, get_tasks bid d' = mkResponse 200 (TaskList rows) ∧ rows.*1 = ks ∧
    (task_order ∘ snd) <$> rows = seqZ 0 (Z.of_nat (length ks)).
Proof.
  intros Hbid Hne Hboard Hnd Hsib Hids rq d'.
  assert (H200 : status (reorder_post clock rq d).2 = 200).
  { unfold rq. rewrite reorder_post_unfold by done.
    destruct (bool_decide (length l = 0)); [done|].
    destruct (updatePromises_post_total l bid clock 0) as [qs Hq].
    { intros e He. destruct (element_is_object ks l Hids e He) as (t & k & -> & Hk & Hin).
      exists t. split; [done|]. rewrite Hk. apply truthy_Str_2. by intros ->. }
    rewrite Hq. apply updatePromises_post_patch in Hq.
    destruct (permutation_batch_commits bid ks l d Hboard Hsib Hids clock qs Hq)
      as (d1 & rs & ->). done. }
  split; [done|].
  destruct (reorder_post_200 clock rq d H200)
    as (bid' & l' & qs & rs & Hb & [= <-] & Hq & Hr).
  destruct Hb as [[[= <-] _]|(_ & _ & Hno)]; [|by destruct (Hno bid)].
  exact (permutation_batch_listed bid ks l d Hnd Hsib Hids clock qs d' rs Hq Hr).
Qed.

(** The PATCH handler of index.ts does the same. *)
Lemma reorder_patch_permutation_listed clock bid (ks : list string) l d :
  bid ≠ EmptyString →
  is_Some (boards d !! bid) →
  NoDup ks →
  (∀ k, k ∈ ks ↔ ∃ t, tasks d !! k = Some t ∧ boardId t = bid) →
  ids_of l = (Some ∘ Str) <$> ks →
  let rq := mkReorder (Str bid) (Some l) in
  let d' := (reorder_patch clock rq d).1 in
  status (reorder_patch clock rq d).2 = 200 ∧
  (∀ i k, ks !! i = Some k →
     ∃ t, tasks d' !! k = Some t ∧ task_order t = Z.of_nat i ∧ boardId t = bid) ∧
  ∃ rows, get_tasks bid d' = mkResponse 200 (TaskList rows) ∧ rows.*1 = ks ∧
    (task_order ∘ snd) <$> rows = seqZ 0 (Z.of_nat (length ks)).
Proof.
  intros Hbid Hboard Hnd Hsib Hids rq d'.
  assert (H200 : status (reorder_patch clock rq d).2 = 200).
  { unfold rq. rewrite reorder_patch_unfold by done.
    destruct (updatePromises_patch_total l bid clock 0) as [qs Hq].
    { intros e He. destruct (element_is_object ks l Hids e He) as (t & k & -> & _).
      done. }
    rewrite Hq.
    destruct (permutation_batch_commits bid ks l d Hboard Hsib Hids clock qs Hq)
      as (d1 & rs & ->). done. }
  split; [done|].
  destruct (reorder_patch_200 clock rq d H200)
    as (bid' & l' & qs & rs & Hb & [= <-] & Hq & Hr).
  destruct Hb as [[[= <-] _]|(_ & _ & Hno)]; [|by destruct (Hno bid)].
  exact (permutation_batch_listed bid ks l d Hnd Hsib Hids clock qs d' rs Hq Hr).
Qed.

Lemma demo_tasks_of_b1 k :
  k ∈ ["t2"; "t1"] ↔ ∃ t, tasks demo_db !! k = Some t ∧ boardId t = "b1".
Proof.
  simpl. split.
  - intros [->|[->|[]%elem_of_nil]%elem_of_cons]%elem_of_cons; by eexists.
  - intros (t & [[<- _]|[_ [<- _]%lookup_singleton_Some]]%lookup_insert_Some & _).
    + right. left.
    + left.
Qed.

Lemma reorder_permutation_listed_witness :
  status (reorder_post 9 rq_swap demo_db).2 = 200 ∧
  (∀ i k, ["t2"; "t1"] !! i = Some k →
     ∃ t, tasks (reorder_post 9 rq_swap demo_db).1 !! k = Some t ∧
       task_order t = Z.of_nat i ∧ boardId t = "b1") ∧
  ∃ rows, get_tasks "b1" (reorder_post 9 rq_swap demo_db).1
            = mkResponse 200 (TaskList rows) ∧
    rows.*1 = ["t2"; "t1"] ∧
    (task_order ∘ snd) <$> rows = seqZ 0 (Z.of_nat (length ["t2"; "t1"])).
Proof.
  apply (reorder_permutation_listed 9 "b1" ["t2"; "t1"]
           [just_id "t2"; just_id "t1"] demo_db).
  - discriminate.
  - by_evaluation.
  - vm_compute. eexists. reflexivity.
  - by_evaluation.
  - apply demo_tasks_of_b1.
  - reflexivity.
Defined.

(** ** Serial creation *)

Section Dense.
Context {A : Type} `{Child A}.
Implicit Types (tbl : gmap string A) (pid : string) (ks : list string).

Lemma dense_children_empty tbl pid :
  (∀ k v, tbl !! k = Some v → parent_of v ≠ pid) → dense_children tbl pid [].
Proof.
  intros Hno. split_and!; [constructor| |done].
  intros k v Hk Hp. by destruct (Hno k v Hk).
Qed.

(** With dense children the handler's [newOrder] is their number. *)
Lemma dense_children_newOrder tbl pid ks :
  dense_children tbl pid ks →
  newOrder (findFirst_desc tbl pid) = Z.of_nat (length ks).
Proof.
  intros (Hnd & Hsub & Hidx).
  apply (next_order_spec_unique tbl pid); [apply newOrder_next|].
  destruct (decide (length ks = 0)) as [Hz|Hnz].
  - left. apply length_zero_iff_nil in Hz as ->. split; [|done].
    intros k v Hk Hp. specialize (Hsub k v Hk Hp). by apply elem_of_nil in Hsub.
  - right. destruct (lookup_lt_is_Some_2 ks (length ks - 1)) as [k Hk]; [lia|].
    destruct (Hidx _ _ Hk) as (v & Hv & Hp & Ho). exists k, v.
    split_and!; [done..|lia|].
    intros k' v' Hk' Hp'. pose proof (Hsub k' v' Hk' Hp') as Hin.
    apply list_elem_of_lookup in Hin as [i Hi].
    destruct (Hidx _ _ Hi) as (v'' & Hv'' & _ & Ho'').
    assert (v'' = v') as -> by congruence.
    apply lookup_lt_Some in Hi. lia.
Qed.

(** A new child with the next order keeps the children dense. *)
Lemma dense_children_insert tbl pid ks id row :
  dense_children tbl pid ks → tbl !! id = None →
  parent_of row = pid → order_of row = Z.of_nat (length ks) →
  dense_children (<[id := row]> tbl) pid (ks ++ [id]).
Proof.
  intros (Hnd & Hsub & Hidx) Hfresh Hp Ho.
  assert (Hout : id ∉ ks).
  { intros [i Hi]%list_elem_of_lookup. destruct (Hidx _ _ Hi) as (v & Hv & _).
    congruence. }
  split_and!.
  - apply NoDup_app. split_and!; [done| |apply NoDup_singleton].
    intros k Hk ->%list_elem_of_singleton. done.
  - intros k v Hk Hpv. apply elem_of_app.
    destruct (decide (id = k)) as [->|Hne]; [right; left|].
    rewrite lookup_insert_ne in Hk by done. left. by eapply Hsub.
  - intros i k Hi. apply lookup_app_Some in Hi as [Hi|[Hlen Hi]].
    + destruct (Hidx _ _ Hi) as (v & Hv & Hpv & Hov). exists v.
      split_and!; [|done..]. rewrite lookup_insert_ne; [done|].
      intros <-. apply Hout. by eapply list_elem_of_lookup_2.
    + apply list_lookup_singleton_Some in Hi as [Hi <-].
      exists row. rewrite lookup_insert_eq. split_and!; [done..|]. lia.
Qed.

(** Dense children are listed in the sequence of their ids. *)
Lemma dense_children_listed tbl pid ks :
  dense_children tbl pid ks →
  (findMany_asc tbl pid).*1 = ks ∧
  (order_of ∘ snd) <$> findMany_asc tbl pid = seqZ 0 (Z.of_nat (length ks)).
Proof. intros (Hnd & Hsub & Hidx). by apply findMany_asc_indexed. Qed.

End Dense.

(** A run of handlers, one handler at a time. *)
Lemma foldl_serially {R} (hs : list (DB → DB * R)) : ∀ (d : DB) (acc : list R),
  foldl (λ acc h, let '(d', r) := h acc.1 in (d', acc.2 ++ [r])) (d, acc) hs =
    ((serially hs d).1, acc ++ (serially hs d).2).
Proof.
  unfold serially. induction hs as [|h hs IH]; intros d acc; simpl.
  - by rewrite app_nil_r.
  - destruct (h d) as [d1 r]. rewrite (IH d1 (acc ++ [r])), (IH d1 [r]).
    simpl. by rewrite <- app_assoc.
Qed.

Lemma serially_cons {R} (h : DB → DB * R) hs d :
  serially (h :: hs) d =
    ((serially hs (h d).1).1, (h d).2 :: (serially hs (h d).1).2).
Proof.
  unfold serially at 1. simpl. destruct (h d) as [d1 r]. simpl.
  by rewrite (foldl_serially hs d1 [r]).
Qed.

Lemma serially_length {R} (hs : list (DB → DB * R)) : ∀ d,
  length (serially hs d).2 = length hs.
Proof.
  induction hs as [|h hs IH]; intros d; [done|].
  rewrite serially_cons. simpl. by rewrite IH.
Qed.

(** A run of creations, each answered 201, from any point of a parent
    with dense children. *)
Lemma board_creations_dense pid reqs : ∀ d ks,
  dense_children (boards d) pid ks →
  Forall (λ r, status r = 201) (serially (board_creations pid reqs) d).2 →
  dense_children (boards (serially (board_creations pid reqs) d).1) pid
    (ks ++ ((cuid ∘ fst) <$> reqs)).
Proof.
  induction reqs as [|[env n] reqs IH]; intros d ks Hdense.
  { intros _. simpl. by rewrite app_nil_r. }
  cbn [board_creations fmap list_fmap]. fold (board_creations pid reqs).
  rewrite serially_cons. cbn [fst snd].
  intros [H201 Hrest]%Forall_cons.
  destruct (post_boards_201 env pid n d _ _ (surjective_pairing _) H201)
    as (n' & _ & _ & Hfresh & _ & _ & Hd1).
  simpl in Hd1. rewrite (dense_children_newOrder _ _ _ Hdense) in Hd1.
  specialize (IH (post_boards env pid n d).1 (ks ++ [cuid env])).
  rewrite <- app_assoc in IH. apply IH; [|done].
  rewrite Hd1. by apply dense_children_insert.
Qed.

Lemma task_creations_dense bid reqs : ∀ d ks,
  dense_children (tasks d) bid ks →
  Forall (λ r, status r = 201) (serially (task_creations bid reqs) d).2 →
  dense_children (tasks (serially (task_creations bid reqs) d).1) bid
    (ks ++ ((cuid ∘ fst ∘ fst) <$> reqs)).
Proof.
  induction reqs as [|[[env n] desc] reqs IH]; intros d ks Hdense.
  { intros _. simpl. by rewrite app_nil_r. }
  cbn [task_creations fmap list_fmap]. fold (task_creations bid reqs).
  rewrite serially_cons. cbn [fst snd].
  intros [H201 Hrest]%Forall_cons.
  destruct (post_tasks_201 env bid n desc d _ _ (surjective_pairing _) H201)
    as (n' & _ & _ & Hfresh & _ & _ & Hd1).
  simpl in Hd1. rewrite (dense_children_newOrder _ _ _ Hdense) in Hd1.
  specialize (IH (post_tasks env bid n desc d).1 (ks ++ [cuid env])).
  rewrite <- app_assoc in IH. apply IH; [|done].
  rewrite Hd1. by apply dense_children_insert.
Qed.

(** C6. N boards created one after the other under a project without
    boards, or N tasks under a board without tasks, each creation
    answered 201: the children of the parent, listed by ascending
    order, are the N created rows in creation order, with orders
    0, 1, ..., N-1. *)
Theorem serial_creates_are_dense pid bid (breqs : list (Env * field))
    (treqs : list (Env * field * field)) d :
  (children (boards d) pid = [] →
   let out := serially (board_creations pid breqs) d in
   Forall (λ r, status r = 201) out.2 →
   length out.2 = length breqs ∧
   (findMany_asc (boards out.1) pid).*1 = (cuid ∘ fst) <$> breqs ∧
   (board_order ∘ snd) <$> findMany_asc (boards out.1) pid
     = seqZ 0 (Z.of_nat (length breqs))) ∧
  (children (tasks d) bid = [] →
   let out := serially (task_creations bid treqs) d in
   Forall (λ r, status r = 201) out.2 →
   length out.2 = length treqs ∧
   (findMany_asc (tasks out.1) bid).*1 = (cuid ∘ fst ∘ fst) <$> treqs ∧
   (task_order ∘ snd) <$> findMany_asc (tasks out.1) bid
     = seqZ 0 (Z.of_nat (length treqs))).
Proof.
  split.
  - intros Hempty out Hall.
    pose proof (board_creations_dense pid breqs d []
                  (dense_children_empty _ _ (proj1 (children_nil _ _) Hempty)) Hall) as Hd.
    simpl in Hd. apply dense_children_listed in Hd as [Hids Hord].
    rewrite length_fmap in Hord. split; [|done].
    unfold out, board_creations, task_creations.
    by rewrite serially_length, length_fmap.
  - intros Hempty out Hall.
    pose proof (task_creations_dense bid treqs d []
                  (dense_children_empty _ _ (proj1 (children_nil _ _) Hempty)) Hall) as Hd.
    simpl in Hd. apply dense_children_listed in Hd as [Hids Hord].
    rewrite length_fmap in Hord. split; [|done].
    unfold out, board_creations, task_creations.
    by rewrite serially_length, length_fmap.
Qed.

Lemma serial_creates_are_dense_witness :
  (let out := serially (board_creations "p2" demo_board_reqs) demo_db in
   length out.2 = length demo_board_reqs ∧
   (findMany_asc (boards out.1) "p2").*1 = (cuid ∘ fst) <$> demo_board_reqs ∧
   (board_order ∘ snd) <$> findMany_asc (boards out.1) "p2"
     = seqZ 0 (Z.of_nat (length demo_board_reqs))) ∧
  (let out := serially (task_creations "b2" demo_task_reqs) demo_db in
   length out.2 = length demo_task_reqs ∧
   (findMany_asc (tasks out.1) "b2").*1 = (cuid ∘ fst ∘ fst) <$> demo_task_reqs ∧
   (task_order ∘ snd) <$> findMany_asc (tasks out.1) "b2"
     = seqZ 0 (Z.of_nat (length demo_task_reqs))).
Proof.
  split.
  - apply (proj1 (serial_creates_are_dense "p2" "b2" demo_board_reqs
                    demo_task_reqs demo_db)).
    + vm_compute. reflexivity.
    + by_evaluation.
  - apply (proj2 (serial_creates_are_dense "p2" "b2" demo_board_reqs
                    demo_task_reqs demo_db)).
    + vm_compute. reflexivity.
    + by_evaluation.
Defined.

(** ** Cascading delete *)

Lemma project_delete_Ok pid d :
  is_Some (projects d !! pid) →
  project_delete pid d =
    Ok (mkDB (delete pid (projects d))
             (filter (λ kv, projectId kv.2 ≠ pid) (boards d))
             (filter (λ kv, ¬ board_of_project d pid (boardId kv.2)) (tasks d))).
Proof. intros [p Hp]. unfold project_delete. by rewrite Hp. Qed.

Lemma project_delete_referential pid d d' :
  project_delete pid d = Ok d' → referential d → referential d'.
Proof.
  unfold project_delete. destruct (projects d !! pid) as [old|]; [|done].
  intros [= <-] [Hb Ht]. split; simpl.
  - intros b row [Hrow Hne]%map_lookup_filter_Some. simpl in Hne.
    rewrite lookup_delete_ne by done. by eapply Hb.
  - intros t row [Hrow Hne]%map_lookup_filter_Some. simpl in Hne.
    destruct (Ht t row Hrow) as [brow Hbrow]. exists brow.
    apply map_lookup_filter_Some. split; [done|]. simpl. intros Hp.
    apply Hne. unfold board_of_project. by rewrite Hbrow.
Qed.

Lemma board_delete_referential bid d d' :
  board_delete bid d = Ok d' → referential d → referential d'.
Proof.
  unfold board_delete. destruct (boards d !! bid) as [old|]; [|done].
  intros [= <-] [Hb Ht]. split; simpl.
  - intros b row [_ Hrow]%lookup_delete_Some. by eapply Hb.
  - intros t row [Hrow Hne]%map_lookup_filter_Some. simpl in Hne.
    rewrite lookup_delete_ne by done. by eapply Ht.
Qed.

Lemma task_delete_referential tid d d' :
  task_delete tid d = Ok d' → referential d → referential d'.
Proof.
  unfold task_delete. destruct (tasks d !! tid) as [old|]; [|done].
  intros [= <-] [Hb Ht]. split; simpl; [done|].
  intros t row [_ Hrow]%lookup_delete_Some. by eapply Ht.
Qed.

(** C8. Deleting an existing project is answered 204 and removes the
    project, every board of the project and every task of those boards:
    their ids are no longer found (a lookup gives nothing, an update or
    a delete of them fails with P2025). A database whose references all
    point to existing rows stays so after any project, board or task
    delete. *)
Theorem project_delete_cascades pid d :
  is_Some (projects d !! pid) →
  let d' := (delete_project pid d).1.1 in
  status (delete_project pid d).1.2 = 204 ∧
  projects d' !! pid = None ∧
  (∀ b row, boards d !! b = Some row → projectId row = pid →
     boards d' !! b = None ∧ board_delete b d' = Err P2025) ∧
  (∀ t row brow, tasks d !! t = Some row →
     boards d !! boardId row = Some brow → projectId brow = pid →
     tasks d' !! t = None ∧
     (∀ data clock, task_update (Str t) data clock d' = Err P2025) ∧
     task_delete t d' = Err P2025) ∧
  (referential d →
   referential d' ∧
   (∀ b, referential (delete_board b d).1) ∧
   (∀ t, referential (delete_task t d).1)).
Proof.
  intros Hp d'. unfold d', delete_project. rewrite (project_delete_Ok pid d Hp).
  cbn [fst snd status]. split_and!; [done|apply lookup_delete_eq| | |].
  - intros b row Hrow Hpid.
    assert (Hgone : filter (λ kv, projectId kv.2 ≠ pid) (boards d) !! b = None).
    { apply map_lookup_filter_None. right. intros row' Hrow'. simpl.
      assert (row' = row) as -> by congruence. by intros []. }
    split; [done|]. unfold board_delete. cbn [boards]. by rewrite Hgone.
  - intros t row brow Hrow Hbrow Hpid.
    assert (Hgone : filter (λ kv, ¬ board_of_project d pid (boardId kv.2)) (tasks d)
                      !! t = None).
    { apply map_lookup_filter_None. right. intros row' Hrow'. simpl.
      assert (row' = row) as -> by congruence. intros Hno. apply Hno.
      unfold board_of_project. by rewrite Hbrow. }
    split_and!; [done| |].
    + intros data clock. unfold task_update. cbn [tasks]. by rewrite Hgone.
    + unfold task_delete. cbn [tasks]. by rewrite Hgone.
  - intros Href. split_and!.
    + eapply project_delete_referential; [by apply project_delete_Ok|done].
    + intros b. unfold delete_board.
      destruct (board_delete b d) as [d1|] eqn:E; [|done].
      by eapply board_delete_referential.
    + intros t. unfold delete_task.
      destruct (task_delete t d) as [d1|] eqn:E; [|done].
      by eapply task_delete_referential.
Qed.

Lemma project_delete_cascades_witness :
  let d' := (delete_project "p1" demo_db).1.1 in
  status (delete_project "p1" demo_db).1.2 = 204 ∧
  projects d' !! "p1" = None ∧
  (boards d' !! "b1" = None ∧ board_delete "b1" d' = Err P2025) ∧
  (tasks d' !! "t1" = None ∧
   (∀ data clock, task_update (Str "t1") data clock d' = Err P2025) ∧
   task_delete "t1" d' = Err P2025) ∧
  referential d' ∧
  (∀ b, referential (delete_board b demo_db).1) ∧
  (∀ t, referential (delete_task t demo_db).1).
Proof.
  destruct (project_delete_cascades "p1" demo_db)
    as (Hstatus & Hproject & Hboards & Htasks & Href).
  - vm_compute. eexists. reflexivity.
  - split; [exact Hstatus|]. split; [exact Hproject|].
    split; [apply (Hboards "b1" (mkBoard "Todo" 0 "p1" 0 0)); reflexivity|].
    split.
    + apply (Htasks "t1" (mkTask "Write" None 0 "b1" 0 0) (mkBoard "Todo" 0 "p1" 0 0));
        reflexivity.
    + apply Href. by_evaluation.
Defined.

(** ** Fan-out *)

Lemma room_joinProject sid pid io sid' r :
  sid' ∈ room (joinProject sid pid io) r ↔ (sid' = sid ∧ r = pid) ∨ sid' ∈ room io r.
Proof.
  unfold room, joinProject. cbn [rooms].
  destruct (decide (pid = r)) as [->|Hne].
  - rewrite lookup_insert_eq. simpl. unfold room.
    rewrite elem_of_union, elem_of_singleton.
    split; [intros [->|Hin]|intros [[-> _]|Hin]]; auto.
  - rewrite lookup_insert_ne by done. split; [by right|]. intros [[_ ->]|]; done.
Qed.

Lemma room_on_connection sid io r : room (on_connection sid io) r = room io r.
Proof. done. Qed.

Lemma room_disconnect sid io sid' r :
  sid' ∈ room (disconnect sid io) r ↔ sid' ≠ sid ∧ sid' ∈ room io r.
Proof.
  unfold room, disconnect. cbn [rooms]. rewrite lookup_fmap.
  destruct (rooms io !! r) as [s|]; simpl.
  - rewrite elem_of_difference, elem_of_singleton. tauto.
  - split; [by intros ?%elem_of_empty|by intros [_ ?%elem_of_empty]].
Qed.

(** What the real-time board creation publishes when it answers 201. *)
Lemma post_boards_rt_201 env pid name d :
  status (post_boards_rt env pid name d).1.2 = 201 →
  ∃ row, (post_boards_rt env pid name d).2
           = [mkEmission (Room pid) "board:created" (BoardJson row)] ∧
    body (post_boards_rt env pid name d).1.2 = BoardJson row.
Proof.
  unfold post_boards_rt. destruct (truthy name); [|done]. cbn zeta.
  destruct (board_create _ _ _ _ _ _) as [[d' row]|]; [|done].
  intros _. by exists row.
Qed.

(** C9. When a board is created under project [pid] (answer 201), the
    sockets that receive [board:created] are exactly those in the room
    of [pid], whatever the registry: a socket that has just joined
    [pid] receives it, and a socket outside the room of [pid] that
    joins another project does not. *)
Theorem board_created_reaches_room io env pid name d :
  status (post_boards_rt env pid name d).1.2 = 201 →
  let out := (post_boards_rt env pid name d).2 in
  (∀ sid, receives io out "board:created" sid ↔ sid ∈ room io pid) ∧
  (∀ sid, receives (joinProject sid pid io) out "board:created" sid) ∧
  (∀ sid other, other ≠ pid → sid ∉ room io pid →
     ¬ receives (joinProject sid other io) out "board:created" sid).
Proof.
  intros (row & Hout & _)%post_boards_rt_201 out. unfold out. rewrite Hout.
  assert (Hrecv : ∀ io' sid, receives io'
            [mkEmission (Room pid) "board:created" (BoardJson row)]
            "board:created" sid ↔ sid ∈ room io' pid).
  { intros io' sid. unfold receives. split.
    - intros (e & ->%list_elem_of_singleton & _ & Hin). exact Hin.
    - intros Hin. eexists. split; [left|]. by split. }
  split_and!.
  - intros sid. apply Hrecv.
  - intros sid. apply Hrecv, room_joinProject. by left.
  - intros sid other Hne Hout' [[_ Heq]|Hin]%Hrecv%room_joinProject; done.
Qed.

Lemma board_created_reaches_room_witness :
  let out := (post_boards_rt (mkEnv 7 "b3") "p1" (Str "Review") demo_db).2 in
  receives demo_io out "board:created" "s1" ∧
  ¬ receives demo_io out "board:created" "s2" ∧
  (∀ sid, receives (joinProject sid "p1" demo_io) out "board:created" sid) ∧
  ¬ receives (joinProject "s2" "p2" demo_io) out "board:created" "s2".
Proof.
  destruct (board_created_reaches_room demo_io (mkEnv 7 "b3") "p1" (Str "Review")
              demo_db) as (Hroom & Hjoin & Hother).
  - vm_compute. reflexivity.
  - split_and!.
    + apply Hroom. by_evaluation.
    + intros Hin%Hroom. revert Hin. by_evaluation.
    + exact Hjoin.
    + apply Hother.
      * discriminate.
      * by_evaluation.
Defined.

(** ** Task update *)





(** * Further properties of the handlers *)

(** ** Listings *)

Section Listing.
Context {A : Type} `{Child A}.
Implicit Types (tbl : gmap string A) (pid : string).
#[local] Existing Instance order_asc_trans.
#[local] Existing Instance order_asc_total.

Lemma findMany_asc_sorted tbl pid : StronglySorted order_asc (findMany_asc tbl pid).
Proof. apply StronglySorted_merge_sort; apply _. Qed.

Lemma NoDup_findMany_asc_fst tbl pid : NoDup (findMany_asc tbl pid).*1.
Proof.
  unfold findMany_asc. rewrite merge_sort_Permutation. apply NoDup_children_fst.
Qed.

Lemma key_order_fst (L : list (string * A)) : (key_order <$> L).*1 = L.*1.
Proof. rewrite <- list_fmap_compose. done. Qed.

Lemma key_order_snd (L : list (string * A)) :
  (key_order <$> L).*2 = (order_of ∘ snd) <$> L.
Proof. rewrite <- list_fmap_compose. done. Qed.

Lemma elem_of_key_order_findMany tbl pid k o :
  (k, o) ∈ key_order <$> findMany_asc tbl pid ↔ placed tbl pid k o.
Proof.
  rewrite list_elem_of_fmap. unfold placed. split.
  - intros ([k' v] & [= -> ->] & [Hk Hp]%elem_of_findMany_asc). by exists v.
  - intros (v & Hk & Hp & <-). exists (k, v). split; [done|].
    by apply elem_of_findMany_asc.
Qed.

Lemma NoDup_key_order_findMany tbl pid :
  NoDup (key_order <$> findMany_asc tbl pid).
Proof.
  apply (NoDup_fmap_1 fst). rewrite key_order_fst. apply NoDup_findMany_asc_fst.
Qed.

Lemma key_order_findMany_sorted tbl pid :
  StronglySorted (λ a b : string * Z, (a.2 ≤ b.2)%Z)
    (key_order <$> findMany_asc tbl pid).
Proof.
  apply (StronglySorted_fmap _ order_asc); [done|]. apply findMany_asc_sorted.
Qed.

Lemma StronglySorted_filter {B} (R : relation B) (P : B → Prop)
    `{∀ x, Decision (P x)} (l : list B) :
  StronglySorted R l → StronglySorted R (filter P l).
Proof.
  induction 1 as [|x l Hl IH Hx]; [constructor|].
  rewrite filter_cons. destruct (decide (P x)); [|done].
  constructor; [done|]. apply Forall_forall. intros y [_ Hy]%list_elem_of_filter.
  rewrite Forall_forall in Hx. by apply Hx.
Qed.

(** Two sorted lists of placed rows with the same members are the same
    list, when no two members share an order. *)
Lemma placed_lists_unique (l1 l2 : list (string * Z)) :
  StronglySorted (λ a b : string * Z, (a.2 ≤ b.2)%Z) l1 →
  StronglySorted (λ a b : string * Z, (a.2 ≤ b.2)%Z) l2 →
  NoDup l1 → NoDup l2 → (∀ x, x ∈ l1 ↔ x ∈ l2) →
  (∀ k1 k2 o, (k1, o) ∈ l1 → (k2, o) ∈ l1 → k1 = k2) →
  l1 = l2.
Proof.
  intros Hs1 Hs2 Hn1 Hn2 Hmem Hdist.
  refine (StronglySorted_unique_strong _ l1 l2 _ Hs1 Hs2
            (NoDup_Permutation _ _ Hn1 Hn2 Hmem)).
  intros [k1 o1] [k2 o2] H1 H2%Hmem Hle Hge. simpl in *.
  assert (o1 = o2) as -> by lia. f_equal. by eapply Hdist.
Qed.

(** The listing of [pid] in a table whose children of [pid] are those of
    another table that pass [keep]: the other listing, filtered. *)
Lemma findMany_asc_filtered tbl tbl' pid (keep : string → Prop)
    `{∀ k, Decision (keep k)} :
  distinct_orders tbl →
  (∀ k o, placed tbl' pid k o ↔ placed tbl pid k o ∧ keep k) →
  key_order <$> findMany_asc tbl' pid
    = filter (λ x, keep x.1) (key_order <$> findMany_asc tbl pid).
Proof.
  intros Hdist Hplaced. apply placed_lists_unique.
  - apply key_order_findMany_sorted.
  - apply StronglySorted_filter, key_order_findMany_sorted.
  - apply NoDup_key_order_findMany.
  - apply NoDup_filter, NoDup_key_order_findMany.
  - intros [k o]. rewrite list_elem_of_filter, !elem_of_key_order_findMany, Hplaced.
    simpl. tauto.
  - intros k1 k2 o (v1 & Hv1 & Hp1 & Ho1)%elem_of_key_order_findMany%Hplaced%proj1
                  (v2 & Hv2 & Hp2 & Ho2)%elem_of_key_order_findMany%Hplaced%proj1.
    eapply Hdist; [done..|congruence|congruence].
Qed.

(** Tables that place the same rows under [pid] list them alike. *)
Lemma findMany_asc_same_placed tbl tbl' pid :
  distinct_orders tbl →
  (∀ k o, placed tbl' pid k o ↔ placed tbl pid k o) →
  key_order <$> findMany_asc tbl' pid = key_order <$> findMany_asc tbl pid.
Proof.
  intros Hdist Hplaced.
  rewrite (findMany_asc_filtered tbl tbl' pid (λ _, True) Hdist).
  - induction (key_order <$> findMany_asc tbl pid) as [|x l IH]; [done|].
    rewrite filter_cons_True by done. by f_equal.
  - intros k o. rewrite Hplaced. tauto.
Qed.

End Listing.


(** ** Sibling orders stay distinct *)

Section Distinct.
Context {A : Type} `{Child A}.
Implicit Types (tbl : gmap string A) (pid : string).

Lemma distinct_orders_sub tbl tbl' :
  (∀ k v, tbl' !! k = Some v → tbl !! k = Some v) →
  distinct_orders tbl → distinct_orders tbl'.
Proof. intros Hsub Hd k1 v1 k2 v2 H1 H2. apply Hd; by apply Hsub. Qed.

Lemma distinct_orders_insert_above tbl id row :
  (∀ k v, tbl !! k = Some v → parent_of v = parent_of row →
     (order_of v < order_of row)%Z) →
  distinct_orders tbl → distinct_orders (<[id := row]> tbl).
Proof.
  intros Habove Hd k1 v1 k2 v2 H1 H2 Hp Ho.
  apply lookup_insert_Some in H1 as [[<- <-]|[Hne1 H1]];
    apply lookup_insert_Some in H2 as [[<- <-]|[Hne2 H2]]; try done.
  - pose proof (Habove k2 v2 H2 (eq_sym Hp)). lia.
  - pose proof (Habove k1 v1 H1 Hp). lia.
  - by eapply Hd.
Qed.

Lemma distinct_orders_replace tbl id old new :
  tbl !! id = Some old → parent_of new = parent_of old →
  order_of new = order_of old →
  distinct_orders tbl → distinct_orders (<[id := new]> tbl).
Proof.
  intros Hold Hp Ho Hd k1 v1 k2 v2 H1 H2 Hp12 Ho12.
  apply lookup_insert_Some in H1 as [[<- <-]|[Hne1 H1]];
    apply lookup_insert_Some in H2 as [[<- <-]|[Hne2 H2]]; try done.
  - apply (Hd id old k2 v2); congruence.
  - apply (Hd k1 v1 id old); congruence.
  - by eapply Hd.
Qed.

(** [newOrder] is above the order of every child. *)
Lemma newOrder_above tbl pid k v :
  tbl !! k = Some v → parent_of v = pid →
  (order_of v < newOrder (findFirst_desc tbl pid))%Z.
Proof.
  intros Hk Hp. destruct (findFirst_desc tbl pid) as [[k' v']|] eqn:E; simpl.
  - apply findFirst_desc_Some in E as (_ & _ & Hmax). specialize (Hmax k v Hk Hp). lia.
  - pose proof (proj1 (findFirst_desc_None tbl pid) E) as Hno.
    by destruct (Hno k v Hk).
Qed.

(** The same, read off the rows: no two rows agree on parent and
    order. *)
Lemma distinct_orders_NoDup tbl :
  NoDup ((λ kv, (parent_of kv.2, order_of kv.2)) <$> map_to_list tbl) →
  distinct_orders tbl.
Proof.
  intros Hnd k1 v1 k2 v2 H1 H2 Hp Ho.
  apply elem_of_map_to_list in H1, H2.
  apply list_elem_of_lookup in H1 as [i Hi], H2 as [j Hj].
  assert (i = j) as ->; [|congruence].
  eapply (NoDup_lookup _ i j _ Hnd); rewrite list_lookup_fmap.
  - by rewrite Hi.
  - rewrite Hj. simpl. by rewrite Hp, Ho.
Qed.

End Distinct.

(** X2. The handlers that create, rename, update or delete a row keep
    sibling orders distinct: boards that have different orders within
    each project still have after a board creation (either revision), a
    board rename, a board delete or a project delete; tasks likewise
    after a task creation, a task update, and a task, board or project
    delete. *)
Theorem sibling_orders_stay_distinct env clock id name desc d :
  (distinct_orders (boards d) →
   distinct_orders (boards (post_boards env id name d).1) ∧
   distinct_orders (boards (post_boards_rt env id name d).1.1) ∧
   distinct_orders (boards (patch_board clock id name d).1) ∧
   distinct_orders (boards (delete_board id d).1) ∧
   distinct_orders (boards (delete_project id d).1.1)) ∧
  (distinct_orders (tasks d) →
   distinct_orders (tasks (post_tasks env id name desc d).1) ∧
   distinct_orders (tasks (patch_task clock id name desc d).1) ∧
   distinct_orders (tasks (delete_task id d).1) ∧
   distinct_orders (tasks (delete_board id d).1) ∧
   distinct_orders (tasks (delete_project id d).1.1)).
Proof.
  split; intros Hd.
  - assert (Hpost : distinct_orders (boards (post_boards env id name d).1)).
    { destruct (post_boards_cases env id name d) as [->|(n & _ & _ & _ & ->)]; [done|].
      simpl. apply distinct_orders_insert_above; [|done].
      intros k v Hk Hp. simpl in *. exact (newOrder_above (boards d) id k v Hk Hp). }
    split_and!; [done|by rewrite post_boards_rt_fst| | |].
    + destruct (patch_board_cases clock id name d) as [->|(n & old & _ & Eo & ->)]; [done|].
      simpl. by eapply distinct_orders_replace.
    + unfold delete_board, board_delete. destruct (boards d !! id); [|done]. simpl.
      apply (λ Hs, distinct_orders_sub _ _ Hs Hd). by intros k v [_ ?]%lookup_delete_Some.
    + unfold delete_project, project_delete. destruct (projects d !! id); [|done].
      simpl. apply (λ Hs, distinct_orders_sub _ _ Hs Hd).
      by intros k v [? _]%map_lookup_filter_Some.
  - split_and!.
    + destruct (post_tasks_cases env id name desc d) as [->|(n & _ & _ & _ & ->)]; [done|].
      simpl. apply distinct_orders_insert_above; [|done].
      intros k v Hk Hp. simpl in *. exact (newOrder_above (tasks d) id k v Hk Hp).
    + destruct (patch_task_cases clock id name desc d)
        as [->|(old & new & Hold & Ho & Hb & _ & ->)]; [done|].
      simpl. by eapply distinct_orders_replace.
    + unfold delete_task, task_delete. destruct (tasks d !! id); [|done]. simpl.
      apply (λ Hs, distinct_orders_sub _ _ Hs Hd). by intros k v [_ ?]%lookup_delete_Some.
    + unfold delete_board, board_delete. destruct (boards d !! id); [|done]. simpl.
      apply (λ Hs, distinct_orders_sub _ _ Hs Hd).
      by intros k v [? _]%map_lookup_filter_Some.
    + unfold delete_project, project_delete. destruct (projects d !! id); [|done].
      simpl. apply (λ Hs, distinct_orders_sub _ _ Hs Hd).
      by intros k v [? _]%map_lookup_filter_Some.
Qed.

Lemma sibling_orders_stay_distinct_witness :
  (distinct_orders (boards (post_boards (mkEnv 7 "b3") "p1" (Str "Review") demo_db).1) ∧
   distinct_orders (boards (post_boards_rt (mkEnv 7 "b3") "p1" (Str "Review") demo_db).1.1) ∧
   distinct_orders (boards (patch_board 9 "p1" (Str "Review") demo_db).1) ∧
   distinct_orders (boards (delete_board "p1" demo_db).1) ∧
   distinct_orders (boards (delete_project "p1" demo_db).1.1)) ∧
  (distinct_orders (tasks (post_tasks (mkEnv 7 "b3") "p1" (Str "Review") Null demo_db).1) ∧
   distinct_orders (tasks (patch_task 9 "p1" (Str "Review") Null demo_db).1) ∧
   distinct_orders (tasks (delete_task "p1" demo_db).1) ∧
   distinct_orders (tasks (delete_board "p1" demo_db).1) ∧
   distinct_orders (tasks (delete_project "p1" demo_db).1.1)).
Proof.
  destruct (sibling_orders_stay_distinct (mkEnv 7 "b3") 9 "p1" (Str "Review") Null
              demo_db) as [Hboards Htasks].
  split.
  - apply Hboards, distinct_orders_NoDup. by_evaluation.
  - apply Htasks, distinct_orders_NoDup. by_evaluation.
Defined.

(** ** What a write does to the listings *)

Section ListingWrites.
Context {A : Type} `{Child A}.
Implicit Types (tbl : gmap string A) (pid : string).

(** A new row above its siblings is listed after them. *)
Lemma findMany_asc_insert_above tbl pid id row :
  distinct_orders tbl →
  tbl !! id = None → parent_of row = pid →
  (∀ k v, tbl !! k = Some v → parent_of v = pid → (order_of v < order_of row)%Z) →
  key_order <$> findMany_asc (<[id := row]> tbl) pid
    = (key_order <$> findMany_asc tbl pid) ++ [(id, order_of row)].
Proof.
  intros Hdist Hfresh Hp Habove. apply placed_lists_unique.
  - apply key_order_findMany_sorted.
  - apply StronglySorted_app. split_and!.
    + intros [k o] x2 (v & Hk & Hpv & <-)%elem_of_key_order_findMany
                      ->%list_elem_of_singleton.
      simpl. specialize (Habove k v Hk Hpv). lia.
    + apply key_order_findMany_sorted.
    + repeat constructor.
  - apply NoDup_key_order_findMany.
  - apply NoDup_app. split_and!; [apply NoDup_key_order_findMany| |apply NoDup_singleton].
    intros [k o] (v & Hk & _)%elem_of_key_order_findMany [= -> ->]%list_elem_of_singleton.
    congruence.
  - intros [k o]. rewrite elem_of_app, list_elem_of_singleton,
      !elem_of_key_order_findMany. unfold placed. split.
    + intros (v & [[<- <-]|[Hne Hk]]%lookup_insert_Some & Hpv & <-).
      * by right.
      * left. by exists v.
    + intros [(v & Hk & Hpv & <-)|[= -> ->]].
      * exists v. split_and!; [|done..]. rewrite lookup_insert_ne; [done|].
        intros <-. congruence.
      * exists row. by rewrite lookup_insert_eq.
  - intros k1 k2 o (v1 & Hv1 & Hp1 & Ho1)%elem_of_key_order_findMany
                  (v2 & Hv2 & Hp2 & Ho2)%elem_of_key_order_findMany.
    apply lookup_insert_Some in Hv1 as [[<- <-]|[Hne1 Hv1]];
      apply lookup_insert_Some in Hv2 as [[<- <-]|[Hne2 Hv2]]; try done.
    + specialize (Habove k2 v2 Hv2 Hp2). lia.
    + specialize (Habove k1 v1 Hv1 Hp1). lia.
    + eapply Hdist; [exact Hv1|exact Hv2|congruence|congruence].
Qed.

(** A new row under another parent does not show. *)
Lemma findMany_asc_insert_other tbl pid id row :
  distinct_orders tbl → tbl !! id = None → parent_of row ≠ pid →
  key_order <$> findMany_asc (<[id := row]> tbl) pid
    = key_order <$> findMany_asc tbl pid.
Proof.
  intros Hdist Hfresh Hp. apply findMany_asc_same_placed; [done|].
  intros k o. unfold placed. split.
  - intros (v & [[<- <-]|[Hne Hk]]%lookup_insert_Some & Hpv & <-); [done|].
    by exists v.
  - intros (v & Hk & Hpv & <-). exists v. split_and!; [|done..].
    rewrite lookup_insert_ne; [done|]. intros <-. congruence.
Qed.

(** A row rewritten in place, parent and order kept, is listed where it
    was. *)
Lemma findMany_asc_replace tbl pid id old new :
  distinct_orders tbl → tbl !! id = Some old →
  parent_of new = parent_of old → order_of new = order_of old →
  key_order <$> findMany_asc (<[id := new]> tbl) pid
    = key_order <$> findMany_asc tbl pid.
Proof.
  intros Hdist Hold Hp Ho. apply findMany_asc_same_placed; [done|].
  intros k o. unfold placed. split.
  - intros (v & [[<- <-]|[Hne Hk]]%lookup_insert_Some & Hpv & <-).
    + exists old. split_and!; congruence.
    + by exists v.
  - intros (v & Hk & Hpv & <-). destruct (decide (id = k)) as [<-|Hne].
    + exists new. rewrite lookup_insert_eq. split_and!; congruence.
    + exists v. by rewrite lookup_insert_ne.
Qed.

(** A deleted row leaves the listings, the others stay in sequence. *)
Lemma findMany_asc_delete tbl pid id :
  distinct_orders tbl →
  key_order <$> findMany_asc (delete id tbl) pid
    = filter (λ x, x.1 ≠ id) (key_order <$> findMany_asc tbl pid).
Proof.
  intros Hdist. refine (findMany_asc_filtered tbl _ pid (λ k, k ≠ id) Hdist _).
  intros k o. unfold placed. split.
  - intros (v & [Hne Hk]%lookup_delete_Some & Hpv & <-). split; [by exists v|done].
  - intros [(v & Hk & Hpv & <-) Hne]. exists v. split_and!; [|done..].
    by apply lookup_delete_Some.
Qed.

End ListingWrites.

(** X3. With distinct sibling orders, a created task is listed last in
    its board and a created board last in its project (after the rows
    listed before, with the order the handler computed), and the
    listings of the other parents are what they were. *)
Theorem created_row_is_listed_last env parent name desc d :
  (distinct_orders (tasks d) →
   status (post_tasks env parent name desc d).2 = 201 →
   let d' := (post_tasks env parent name desc d).1 in
   key_order <$> findMany_asc (tasks d') parent
     = (key_order <$> findMany_asc (tasks d) parent)
         ++ [(cuid env, newOrder (findFirst_desc (tasks d) parent))] ∧
   ∀ b, b ≠ parent →
     key_order <$> findMany_asc (tasks d') b = key_order <$> findMany_asc (tasks d) b) ∧
  (distinct_orders (boards d) →
   status (post_boards env parent name d).2 = 201 →
   let d' := (post_boards env parent name d).1 in
   key_order <$> findMany_asc (boards d') parent
     = (key_order <$> findMany_asc (boards d) parent)
         ++ [(cuid env, newOrder (findFirst_desc (boards d) parent))] ∧
   ∀ p, p ≠ parent →
     key_order <$> findMany_asc (boards d') p = key_order <$> findMany_asc (boards d) p).
Proof.
  split; intros Hdist H201 d'.
  - destruct (post_tasks_201 env parent name desc d _ _ (surjective_pairing _) H201)
      as (n & -> & Hn & Hfresh & Hboard & Hr & Hd').
    unfold d'. rewrite Hd'. cbn [tasks]. split.
    + match goal with |- context [<[_ := ?row]> _] =>
        refine (findMany_asc_insert_above (tasks d) parent (cuid env) row
                  Hdist Hfresh eq_refl _)
      end.
      intros k v Hk Hp. exact (newOrder_above (tasks d) parent k v Hk Hp).
    + intros b Hb. apply findMany_asc_insert_other; [done..|]. simpl. congruence.
  - destruct (post_boards_201 env parent name d _ _ (surjective_pairing _) H201)
      as (n & -> & Hn & Hfresh & Hproj & Hr & Hd').
    unfold d'. rewrite Hd'. cbn [boards]. split.
    + match goal with |- context [<[_ := ?row]> _] =>
        refine (findMany_asc_insert_above (boards d) parent (cuid env) row
                  Hdist Hfresh eq_refl _)
      end.
      intros k v Hk Hp. exact (newOrder_above (boards d) parent k v Hk Hp).
    + intros p Hp. apply findMany_asc_insert_other; [done..|]. simpl. congruence.
Qed.

Lemma created_row_is_listed_last_witness :
  (let d' := (post_tasks (mkEnv 7 "t3") "b1" (Str "Review") Null demo_db).1 in
   key_order <$> findMany_asc (tasks d') "b1"
     = (key_order <$> findMany_asc (tasks demo_db) "b1")
         ++ [("t3", newOrder (findFirst_desc (tasks demo_db) "b1"))] ∧
   ∀ b, b ≠ "b1" →
     key_order <$> findMany_asc (tasks d') b
       = key_order <$> findMany_asc (tasks demo_db) b) ∧
  (let d' := (post_boards (mkEnv 7 "b3") "p1" (Str "Review") demo_db).1 in
   key_order <$> findMany_asc (boards d') "p1"
     = (key_order <$> findMany_asc (boards demo_db) "p1")
         ++ [("b3", newOrder (findFirst_desc (boards demo_db) "p1"))] ∧
   ∀ p, p ≠ "p1" →
     key_order <$> findMany_asc (boards d') p
       = key_order <$> findMany_asc (boards demo_db) p).
Proof.
  split.
  - apply (proj1 (created_row_is_listed_last (mkEnv 7 "t3") "b1" (Str "Review") Null
                    demo_db)).
    + apply distinct_orders_NoDup. by_evaluation.
    + vm_compute. reflexivity.
  - apply (proj2 (created_row_is_listed_last (mkEnv 7 "b3") "p1" (Str "Review") Null
                    demo_db)).
    + apply distinct_orders_NoDup. by_evaluation.
    + vm_compute. reflexivity.
Defined.

(** X4. With distinct sibling orders, a task update (whatever its
    answer) leaves every board's listing as it was: the same ids in the
    same sequence with the same orders; a board rename does the same to
    every project's listing of boards. *)
Theorem updates_keep_listings clock id ttl desc d :
  (distinct_orders (tasks d) →
   ∀ b, key_order <$> findMany_asc (tasks (patch_task clock id ttl desc d).1) b
        = key_order <$> findMany_asc (tasks d) b) ∧
  (distinct_orders (boards d) →
   ∀ p, key_order <$> findMany_asc (boards (patch_board clock id ttl d).1) p
        = key_order <$> findMany_asc (boards d) p).
Proof.
  split; intros Hdist parent.
  - destruct (patch_task_cases clock id ttl desc d)
      as [->|(old & new & Hold & Ho & Hb & _ & ->)]; [done|].
    cbn [fst snd tasks]. by eapply findMany_asc_replace.
  - destruct (patch_board_cases clock id ttl d) as [->|(n & old & _ & Eo & ->)]; [done|].
    cbn [fst snd boards]. by eapply findMany_asc_replace.
Qed.

Lemma updates_keep_listings_witness :
  (∀ b, key_order <$> findMany_asc (tasks (patch_task 9 "t1" (Str "Draft") Null demo_db).1) b
        = key_order <$> findMany_asc (tasks demo_db) b) ∧
  (∀ p, key_order <$> findMany_asc (boards (patch_board 9 "b1" (Str "Draft") demo_db).1) p
        = key_order <$> findMany_asc (boards demo_db) p).
Proof.
  split.
  - apply (proj1 (updates_keep_listings 9 "t1" (Str "Draft") Null demo_db)).
    apply distinct_orders_NoDup. by_evaluation.
  - apply (proj2 (updates_keep_listings 9 "b1" (Str "Draft") Null demo_db)).
    apply distinct_orders_NoDup. by_evaluation.
Defined.

(** X5. Deleting a task that is not stored is answered 500 and changes
    nothing; deleting a stored task is answered 204 and removes that row
    only. The siblings are not renumbered: with distinct sibling orders,
    every listing afterwards is the listing before without the deleted
    id, the other rows in their sequence with their orders. *)
Theorem delete_task_removes_one_row tid d :
  (tasks d !! tid = None →
   delete_task tid d = (d, mkResponse 500 (Message "Failed to delete task"))) ∧
  (is_Some (tasks d !! tid) →
   delete_task tid d
     = (mkDB (projects d) (boards d) (delete tid (tasks d)),
        mkResponse 204 NoContent)) ∧
  (distinct_orders (tasks d) →
   ∀ b, key_order <$> findMany_asc (tasks (delete_task tid d).1) b
        = filter (λ x, x.1 ≠ tid) (key_order <$> findMany_asc (tasks d) b)).
Proof.
  unfold delete_task, task_delete. split_and!.
  - by intros ->.
  - by intros [row ->].
  - intros Hdist b. rewrite <- (findMany_asc_delete (tasks d) b tid Hdist).
    destruct (tasks d !! tid) as [row|] eqn:E; [done|].
    cbn [fst]. by rewrite delete_id.
Qed.

Lemma delete_task_removes_one_row_witness :
  delete_task "t9" demo_db
    = (demo_db, mkResponse 500 (Message "Failed to delete task")) ∧
  delete_task "t1" demo_db
    = (mkDB (projects demo_db) (boards demo_db) (delete "t1" (tasks demo_db)),
       mkResponse 204 NoContent) ∧
  (∀ b, key_order <$> findMany_asc (tasks (delete_task "t1" demo_db).1) b
        = filter (λ x, x.1 ≠ "t1") (key_order <$> findMany_asc (tasks demo_db) b)).
Proof.
  split_and!.
  - apply (proj1 (delete_task_removes_one_row "t9" demo_db)). reflexivity.
  - apply (proj1 (proj2 (delete_task_removes_one_row "t1" demo_db))).
    vm_compute. eexists. reflexivity.
  - apply (proj2 (proj2 (delete_task_removes_one_row "t1" demo_db))).
    apply distinct_orders_NoDup. by_evaluation.
Defined.

(** X6. Deleting a board that is not stored is answered 500 and changes
    nothing. Deleting a stored board is answered 204; it removes the
    board and the tasks whose board it is, and nothing else: the
    projects, the other boards and the tasks of the other boards are as
    they were, GET of the deleted board's tasks is the empty list and,
    with distinct sibling orders, the listings of the other boards are
    unchanged. *)
Theorem delete_board_removes_its_tasks bid d :
  (boards d !! bid = None →
   delete_board bid d = (d, mkResponse 500 (Message "Failed to delete board"))) ∧
  (is_Some (boards d !! bid) →
   let d' := (delete_board bid d).1 in
   status (delete_board bid d).2 = 204 ∧
   projects d' = projects d ∧
   boards d' = delete bid (boards d) ∧
   (∀ t row, tasks d' !! t = Some row ↔ tasks d !! t = Some row ∧ boardId row ≠ bid) ∧
   get_tasks bid d' = mkResponse 200 (TaskList []) ∧
   (distinct_orders (tasks d) → ∀ b, b ≠ bid →
      key_order <$> findMany_asc (tasks d') b
        = key_order <$> findMany_asc (tasks d) b)).
Proof.
  unfold delete_board, board_delete. split.
  - by intros ->.
  - intros [old ->].
    match goal with |- context [mkDB _ _ ?m] => set (tasks' := m) end.
    cbn [fst snd status projects boards tasks].
    assert (Hrows : ∀ t row,
              tasks' !! t = Some row ↔ tasks d !! t = Some row ∧ boardId row ≠ bid).
    { intros t row. unfold tasks'. by rewrite map_lookup_filter_Some. }
    assert (Hnil : children tasks' bid = []).
    { apply children_nil. intros k v [_ Hne]%Hrows. done. }
    split_and!; [done..| |].
    + unfold get_tasks, findMany_asc. cbn [tasks]. by rewrite Hnil.
    + intros Hdist b Hb. apply findMany_asc_same_placed; [done|].
      intros k o. unfold placed. split.
      * intros (v & [Hk _]%Hrows & Hp & <-). by exists v.
      * intros (v & Hk & Hp & <-). exists v. split_and!; [|done..].
        apply Hrows. split; [done|]. simpl in Hp. congruence.
Qed.

Lemma delete_board_removes_its_tasks_witness :
  delete_board "b9" demo_db
    = (demo_db, mkResponse 500 (Message "Failed to delete board")) ∧
  (let d' := (delete_board "b1" demo_db).1 in
   status (delete_board "b1" demo_db).2 = 204 ∧
   projects d' = projects demo_db ∧
   boards d' = delete "b1" (boards demo_db) ∧
   (∀ t row, tasks d' !! t = Some row
             ↔ tasks demo_db !! t = Some row ∧ boardId row ≠ "b1") ∧
   get_tasks "b1" d' = mkResponse 200 (TaskList []) ∧
   (∀ b, b ≠ "b1" →
      key_order <$> findMany_asc (tasks d') b
        = key_order <$> findMany_asc (tasks demo_db) b)).
Proof.
  split.
  - apply (proj1 (delete_board_removes_its_tasks "b9" demo_db)). reflexivity.
  - destruct (proj2 (delete_board_removes_its_tasks "b1" demo_db))
      as (H1 & H2 & H3 & H4 & H5 & H6).
    + vm_compute. eexists. reflexivity.
    + split; [exact H1|]. split; [exact H2|]. split; [exact H3|].
      split; [exact H4|]. split; [exact H5|].
      apply H6, distinct_orders_NoDup. by_evaluation.
Defined.

(** ** Reorders that move tasks *)

(** The database a committed batch leaves, when the list names, once
    each, stored tasks among which are all the tasks of the target
    board. *)
Lemma moving_batch_spec clock bid (ks : list string) l d qs d' rs :
  distinct_orders (tasks d) → NoDup ks →
  (∀ k t, tasks d !! k = Some t → boardId t = bid → k ∈ ks) →
  ids_of l = (Some ∘ Str) <$> ks →
  updatePromises_patch bid clock 0 l = Ok qs → run_batch qs d = Ok (d', rs) →
  (findMany_asc (tasks d') bid).*1 = ks ∧
  (task_order ∘ snd) <$> findMany_asc (tasks d') bid = seqZ 0 (Z.of_nat (length ks)) ∧
  (∀ b, b ≠ bid →
     key_order <$> findMany_asc (tasks d') b
       = filter (λ x, x.1 ∉ ks) (key_order <$> findMany_asc (tasks d) b)) ∧
  distinct_orders (tasks d').
Proof.
  intros Hdist Hnd Hcover Hids Hq Hr.
  destruct (run_batch_patch_spec _ _ _ _ _ _ _ _ Hq Hr)
    as (_ & _ & _ & _ & Hother & Hidx).
  assert (Hpos : ∀ i k, ks !! i = Some k →
     ∃ old, tasks d !! k = Some old ∧
       tasks d' !! k = Some (apply_task_data (reorder_data bid i) clock old)).
  { intros i k Hk. destruct (element_at ks l Hids i k Hk) as (t & Hi & Hid).
    apply (Hidx i t k Hi Hid).
    intros j t' Hlt Hj Hid'. destruct (id_at ks l Hids j t' Hj) as (k' & Hk' & Hkj).
    assert (k' = k) as -> by congruence.
    pose proof (NoDup_lookup ks i j k Hnd Hk Hkj). lia. }
  assert (Hout : ∀ k, k ∉ ks → tasks d' !! k = tasks d !! k).
  { intros k Hk. apply Hother.
    intros t (t' & k' & [= <-] & Hk' & Hin)%(element_is_object ks l Hids). congruence. }
  assert (Hdense : dense_children (tasks d') bid ks).
  { split_and!; [done| |].
    - intros k v Hk Hb. destruct (decide (k ∈ ks)) as [|Hno]; [done|].
      rewrite (Hout k Hno) in Hk. by eapply Hcover.
    - intros i k Hk. destruct (Hpos i k Hk) as (old & _ & Hnew). by eexists. }
  destruct (dense_children_listed _ _ _ Hdense) as [Hlist Hord].
  split_and!; [done|exact Hord| |].
  - intros b Hb.
    refine (findMany_asc_filtered (tasks d) (tasks d') b (λ k, k ∉ ks) Hdist _).
    intros k o. unfold placed. split.
    + intros (v & Hk & Hp & <-). destruct (decide (k ∈ ks)) as [Hin|Hno].
      * apply list_elem_of_lookup in Hin as [i Hi].
        destruct (Hpos i k Hi) as (old & _ & Hnew).
        rewrite Hnew in Hk. injection Hk as <-. simpl in Hp. congruence.
      * rewrite (Hout k Hno) in Hk. split; [by exists v|done].
    + intros [(v & Hk & Hp & <-) Hno]. exists v. by rewrite (Hout k Hno).
  - intros k1 v1 k2 v2 H1 H2 Hp Ho.
    destruct (decide (k1 ∈ ks)) as [Hin1|Hno1]; destruct (decide (k2 ∈ ks)) as [Hin2|Hno2].
    + apply list_elem_of_lookup in Hin1 as [i1 Hi1], Hin2 as [i2 Hi2].
      destruct (Hpos i1 k1 Hi1) as (o1 & _ & Hn1), (Hpos i2 k2 Hi2) as (o2 & _ & Hn2).
      rewrite Hn1 in H1. rewrite Hn2 in H2. injection H1 as <-. injection H2 as <-.
      simpl in Ho. assert (i1 = i2) as -> by lia. congruence.
    + apply list_elem_of_lookup in Hin1 as [i1 Hi1].
      destruct (Hpos i1 k1 Hi1) as (o1 & _ & Hn1). rewrite Hn1 in H1.
      injection H1 as <-. simpl in Hp. rewrite (Hout k2 Hno2) in H2.
      destruct Hno2. by eapply Hcover.
    + apply list_elem_of_lookup in Hin2 as [i2 Hi2].
      destruct (Hpos i2 k2 Hi2) as (o2 & _ & Hn2). rewrite Hn2 in H2.
      injection H2 as <-. simpl in Hp. rewrite (Hout k1 Hno1) in H1.
      destruct Hno1. by eapply Hcover.
    + rewrite (Hout k1 Hno1) in H1. rewrite (Hout k2 Hno2) in H2. by eapply Hdist.
Qed.

(** X7. A reorder may bring tasks of other boards. When the array
    names, once each, stored tasks among which are all the tasks
    already on the target board, both handlers answer 200; GET of the
    target board then lists the named ids in the submitted sequence
    with orders 0..K-1; every other board lists what it listed before
    without the tasks that left, in their sequence and with their old
    orders (no renumbering); and sibling orders are still distinct. *)
Theorem reorder_moves_tasks clock bid (ks : list string) l d :
  bid ≠ EmptyString → EmptyString ∉ ks →
  is_Some (boards d !! bid) →
  distinct_orders (tasks d) → NoDup ks →
  (∀ k, k ∈ ks → is_Some (tasks d !! k)) →
  (∀ k t, tasks d !! k = Some t → boardId t = bid → k ∈ ks) →
  ids_of l = (Some ∘ Str) <$> ks →
  let rq := mkReorder (Str bid) (Some l) in
  ∀ handler, handler = reorder_post ∨ handler = reorder_patch →
  let d' := (handler clock rq d).1 in
  status (handler clock rq d).2 = 200 ∧
  (findMany_asc (tasks d') bid).*1 = ks ∧
  (task_order ∘ snd) <$> findMany_asc (tasks d') bid = seqZ 0 (Z.of_nat (length ks)) ∧
  (∀ b, b ≠ bid →
     key_order <$> findMany_asc (tasks d') b
       = filter (λ x, x.1 ∉ ks) (key_order <$> findMany_asc (tasks d) b)) ∧
  distinct_orders (tasks d').
Proof.
  intros Hbid Hne Hboard Hdist Hnd Hexist Hcover Hids rq handler Hh d'.
  assert (Hobj : ∀ e, e ∈ l → ∃ t, e = Some t ∧ truthy (ref_id t) = true).
  { intros e He. destruct (element_is_object ks l Hids e He) as (t & k & -> & Hk & Hin).
    exists t. split; [done|]. rewrite Hk. apply truthy_Str_2. by intros ->. }
  destruct (updatePromises_post_total l bid clock 0 Hobj) as [qs Hpost].
  pose proof (updatePromises_post_patch _ _ _ _ _ Hpost) as Hq.
  destruct (run_batch_patch_commits l bid clock 0 qs d Hq Hboard) as (d1 & rs & Hr).
  { intros t (t' & k & [= <-] & Hk & Hin)%(element_is_object ks l Hids).
    exists k. split; [done|]. by apply Hexist. }
  assert (Hrun : handler clock rq d
                 = (d1, mkResponse 200 (body (handler clock rq d).2))).
  { destruct Hh as [-> | ->]; unfold rq.
    - rewrite reorder_post_unfold by done.
      destruct (bool_decide (length l = 0)) eqn:El.
      + apply bool_decide_eq_true, length_zero_iff_nil in El as ->.
        simpl in Hq. injection Hq as <-. simpl in Hr. by injection Hr as <-.
      + by rewrite Hpost, Hr.
    - rewrite reorder_patch_unfold by done. by rewrite Hq, Hr. }
  unfold d'. rewrite Hrun. cbn [fst snd status]. split; [done|].
  exact (moving_batch_spec clock bid ks l d qs d1 rs Hdist Hnd Hcover Hids Hq Hr).
Qed.

Lemma reorder_moves_tasks_witness :
  let d' := (reorder_post 9 rq_move demo_db).1 in
  status (reorder_post 9 rq_move demo_db).2 = 200 ∧
  (findMany_asc (tasks d') "b2").*1 = ["t1"] ∧
  (task_order ∘ snd) <$> findMany_asc (tasks d') "b2"
    = seqZ 0 (Z.of_nat (length ["t1"])) ∧
  (∀ b, b ≠ "b2" →
     key_order <$> findMany_asc (tasks d') b
       = filter (λ x, x.1 ∉ ["t1"]) (key_order <$> findMany_asc (tasks demo_db) b)) ∧
  distinct_orders (tasks d').
Proof.
  apply (reorder_moves_tasks 9 "b2" ["t1"] [just_id "t1"] demo_db).
  - discriminate.
  - by_evaluation.
  - vm_compute. eexists. reflexivity.
  - apply distinct_orders_NoDup. by_evaluation.
  - by_evaluation.
  - apply Forall_forall. by_evaluation.
  - change (map_Forall (λ k t, boardId t = "b2" → k ∈ ["t1"]) (tasks demo_db)).
    by_evaluation.
  - reflexivity.
  - left. reflexivity.
Defined.

(** X8. The handlers do not check that the array names every task of
    the target board. When a committed reorder leaves out a task of the
    board whose order is the position of some named id (all ids named
    once), the two tasks end on the same board with the same order:
    sibling orders are no longer distinct. *)
Theorem reorder_partial_list_collides clock bid (ks : list string) l d k0 t0 i k :
  NoDup ks → ids_of l = (Some ∘ Str) <$> ks →
  tasks d !! k0 = Some t0 → boardId t0 = bid → k0 ∉ ks →
  ks !! i = Some k → task_order t0 = Z.of_nat i →
  let rq := mkReorder (Str bid) (Some l) in
  (status (reorder_post clock rq d).2 = 200 →
   ¬ distinct_orders (tasks (reorder_post clock rq d).1)) ∧
  (status (reorder_patch clock rq d).2 = 200 →
   ¬ distinct_orders (tasks (reorder_patch clock rq d).1)).
Proof.
  intros Hnd Hids Hk0 Hb0 Hout Hk Ho rq.
  assert (Hbatch : ∀ qs d' rs,
            updatePromises_patch bid clock 0 l = Ok qs →
            run_batch qs d = Ok (d', rs) → ¬ distinct_orders (tasks d')).
  { intros qs d' rs Hq Hr Hdist.
    destruct (run_batch_patch_spec _ _ _ _ _ _ _ _ Hq Hr)
      as (_ & _ & _ & _ & Hother & Hidx).
    destruct (element_at ks l Hids i k Hk) as (t & Hi & Hid).
    destruct (Hidx i t k Hi Hid) as (old & _ & Hnew).
    { intros j t' Hlt Hj Hid'. destruct (id_at ks l Hids j t' Hj) as (k' & Hk' & Hkj).
      assert (k' = k) as -> by congruence.
      pose proof (NoDup_lookup ks i j k Hnd Hk Hkj). lia. }
    assert (Hsame : tasks d' !! k0 = Some t0).
    { rewrite Hother; [done|].
      intros t' (t'' & k' & [= <-] & Hk' & Hin)%(element_is_object ks l Hids).
      congruence. }
    assert (k = k0) as ->; [|by apply Hout, (list_elem_of_lookup_2 _ i)].
    eapply Hdist; [exact Hnew|exact Hsame|simpl; congruence|simpl; lia]. }
  split.
  - intros (bid' & l' & qs & rs & Hb & [= <-] & Hq & Hr)%reorder_post_200.
    destruct Hb as [[[= <-] _]|(_ & _ & Hno)]; [|by destruct (Hno bid)].
    by eapply Hbatch.
  - intros (bid' & l' & qs & rs & Hb & [= <-] & Hq & Hr)%reorder_patch_200.
    destruct Hb as [[[= <-] _]|(_ & _ & Hno)]; [|by destruct (Hno bid)].
    by eapply Hbatch.
Qed.

Lemma reorder_partial_list_collides_witness :
  ¬ distinct_orders
      (tasks (reorder_post 9 (mkReorder (Str "b1") (Some [just_id "t2"])) demo_db).1) ∧
  ¬ distinct_orders
      (tasks (reorder_patch 9 (mkReorder (Str "b1") (Some [just_id "t2"])) demo_db).1).
Proof.
  destruct (reorder_partial_list_collides 9 "b1" ["t2"] [just_id "t2"] demo_db
              "t1" (mkTask "Write" None 0 "b1" 0 0) 0 "t2") as [Hpost Hpatch].
  - by_evaluation.
  - reflexivity.
  - reflexivity.
  - reflexivity.
  - by_evaluation.
  - reflexivity.
  - reflexivity.
  - split; [apply Hpost|apply Hpatch]; vm_compute; reflexivity.
Defined.

(** ** References stay valid *)





(** ** Creation: the answers *)

(** X10. A task creation is answered 400 exactly when the title is
    falsy (absent, null, the empty string, 0 or false), whether or not
    the board exists, and otherwise 201 or 500. It is answered 201 only
    when the title is a string without U+0000, the description is
    falsy or a string without U+0000, the board exists, the cuid is not
    in use and the order after the last is within the range of [Int];
    so a truthy title with any of these failing is answered 500. Unless
    the answer is 201 the database is unchanged, and a 201 adds the row
    under the cuid and changes no other row, board or project. The same
    holds of a board creation with the name and the project. *)
Theorem creation_answers env parent name desc d :
  (let out := post_tasks env parent name desc d in
   let order := newOrder (findFirst_desc (tasks d) parent) in
   (status out.2 = 400 ↔ truthy name = false) ∧
   (status out.2 = 400 ∨ status out.2 = 201 ∨ status out.2 = 500) ∧
   (status out.2 = 201 →
      (∃ t, name = Str t ∧ text_ok t = true) ∧
      nullable_text_ok (or_null desc) = true ∧
      is_Some (boards d !! parent) ∧ tasks d !! cuid env = None ∧
      int_ok order = true) ∧
   (truthy name = true →
      (∀ t, name = Str t → text_ok t = false) ∨
      nullable_text_ok (or_null desc) = false ∨
      boards d !! parent = None ∨ is_Some (tasks d !! cuid env) ∨
      int_ok order = false →
      status out.2 = 500) ∧
   (status out.2 ≠ 201 → out.1 = d) ∧
   (status out.2 = 201 →
      projects out.1 = projects d ∧ boards out.1 = boards d ∧
      is_Some (tasks out.1 !! cuid env) ∧
      ∀ k, k ≠ cuid env → tasks out.1 !! k = tasks d !! k)) ∧
  (let out := post_boards env parent name d in
   let order := newOrder (findFirst_desc (boards d) parent) in
   (status out.2 = 400 ↔ truthy name = false) ∧
   (status out.2 = 400 ∨ status out.2 = 201 ∨ status out.2 = 500) ∧
   (status out.2 = 201 →
      (∃ n, name = Str n ∧ text_ok n = true) ∧
      is_Some (projects d !! parent) ∧ boards d !! cuid env = None ∧
      int_ok order = true) ∧
   (truthy name = true →
      (∀ n, name = Str n → text_ok n = false) ∨
      projects d !! parent = None ∨ is_Some (boards d !! cuid env) ∨
      int_ok order = false →
      status out.2 = 500) ∧
   (status out.2 ≠ 201 → out.1 = d) ∧
   (status out.2 = 201 →
      projects out.1 = projects d ∧ tasks out.1 = tasks d ∧
      is_Some (boards out.1 !! cuid env) ∧
      ∀ k, k ≠ cuid env → boards out.1 !! k = boards d !! k)).
Proof.
  split.
  - unfold post_tasks. destruct (truthy name) eqn:Et; cbn zeta; [|by split_and!; auto].
    destruct (task_create _ _ _ _ _ _ _) as [[d' row]|e] eqn:Ec;
      cbn [fst snd status]; [|by split_and!; auto].
    apply task_create_Ok in Ec as (t & -> & (Ht & Hn & Hi) & Hf & [b Hp] & -> & ->).
    split_and!; [done|auto| | |done|].
    + intros _. split_and!; [by exists t|done|by eexists|done|done].
    + intros _ [Hbad|[Hbad|[Hbad|[[? Hbad]|Hbad]]]]; [|congruence..].
      specialize (Hbad t eq_refl). congruence.
    + intros _. cbn [projects boards tasks]. split_and!; [done..| |].
      * rewrite lookup_insert_eq. by eexists.
      * intros k Hk. by rewrite lookup_insert_ne.
  - unfold post_boards. destruct (truthy name) eqn:Et; cbn zeta; [|by split_and!; auto].
    destruct (board_create _ _ _ _ _ _) as [[d' row]|e] eqn:Ec;
      cbn [fst snd status]; [|by split_and!; auto].
    apply board_create_Ok in Ec as (n & -> & (Ht & Hi) & Hf & [b Hp] & -> & ->).
    split_and!; [done|auto| | |done|].
    + intros _. split_and!; [by exists n|by eexists|done|done].
    + intros _ [Hbad|[Hbad|[[? Hbad]|Hbad]]]; [|congruence..].
      specialize (Hbad n eq_refl). congruence.
    + intros _. cbn [projects boards tasks]. split_and!; [done..| |].
      * rewrite lookup_insert_eq. by eexists.
      * intros k Hk. by rewrite lookup_insert_ne.
Qed.

(** ** Fan-out: joins and broadcasts *)

(** X11. No handler makes a socket leave a room: whoever receives a
    published event still receives it after any socket joins any
    project. So a socket that joined a project and then another keeps
    receiving the first project's [board:created]. *)
Theorem joining_never_unsubscribes io sid pid out ev s :
  receives io out ev s →
  receives (joinProject sid pid io) out ev s ∧
  (∀ env p name d,
     status (post_boards_rt env p name d).1.2 = 201 →
     receives (joinProject sid pid (joinProject sid p io))
       (post_boards_rt env p name d).2 "board:created" sid).
Proof.
  intros (e & He & Hev & Hin). split.
  - exists e. split_and!; [done..|]. unfold recipients in *.
    destruct (em_target e) as [|r]; [done|]. apply room_joinProject. by right.
  - intros env p name d (row & -> & _)%post_boards_rt_201.
    eexists. split; [left|]. split; [done|]. cbn [recipients em_target].
    apply room_joinProject. right. apply room_joinProject. by left.
Qed.

Lemma joining_never_unsubscribes_witness :
  receives (joinProject "s1" "p2" demo_io)
    (post_boards_rt (mkEnv 7 "b3") "p1" (Str "Review") demo_db).2 "board:created" "s1" ∧
  (∀ env p name d,
     status (post_boards_rt env p name d).1.2 = 201 →
     receives (joinProject "s1" "p2" (joinProject "s1" p demo_io))
       (post_boards_rt env p name d).2 "board:created" "s1").
Proof.
  apply (joining_never_unsubscribes demo_io "s1" "p2").
  eexists. split; [left|]. split; [reflexivity|]. by_evaluation.
Defined.

(** X12. Events follow success. A board creation that is not answered
    201 and a project delete that is not answered 204 publish nothing
    and change nothing; a project delete answered 204 publishes
    [project:deleted], which every connected socket receives, joined to
    a room or not, and no other socket. *)
Theorem events_follow_success io env pid name d :
  (status (post_boards_rt env pid name d).1.2 ≠ 201 →
   (post_boards_rt env pid name d).2 = [] ∧ (post_boards_rt env pid name d).1.1 = d) ∧
  (status (delete_project pid d).1.2 ≠ 204 →
   (delete_project pid d).2 = [] ∧ (delete_project pid d).1.1 = d) ∧
  (status (delete_project pid d).1.2 = 204 →
   ∀ s, receives io (delete_project pid d).2 "project:deleted" s ↔ s ∈ sockets io).
Proof.
  split_and!.
  - unfold post_boards_rt. destruct (truthy name); [|done]. cbn zeta.
    by destruct (board_create _ _ _ _ _ _) as [[d' row]|].
  - unfold delete_project. by destruct (project_delete pid d).
  - unfold delete_project. destruct (project_delete pid d) as [d'|]; [|done].
    intros _ s. cbn [fst snd]. unfold receives. split.
    + by intros (e & ->%list_elem_of_singleton & _ & Hin).
    + intros Hin. eexists. split; [left|]. by split.
Qed.

(** ** Registration and login *)

Section Auth.
Context `{Bcrypt}.
Implicit Types (users : gmap string User).

Lemma user_of_email_Some users e k u :
  user_of_email users e = Some (k, u) → users !! k = Some u ∧ email u = e.
Proof.
  unfold user_of_email. intros Hh%head_Some_elem_of.
  apply list_elem_of_filter in Hh as [He Hin]. by apply elem_of_map_to_list in Hin.
Qed.

Lemma user_of_email_None users e :
  user_of_email users e = None ↔ ∀ k u, users !! k = Some u → email u ≠ e.
Proof.
  unfold user_of_email. rewrite head_None. split.
  - intros Hnil k u Hk He.
    assert (Hin : (k, u) ∈ filter (λ kv : string * User, email kv.2 = e)
                               (map_to_list users)).
    { apply list_elem_of_filter. split; [done|]. by apply elem_of_map_to_list. }
    rewrite Hnil in Hin. by apply elem_of_nil in Hin.
  - intros Hno.
    destruct (filter (λ kv : string * User, email kv.2 = e) (map_to_list users))
      as [|[k u] l] eqn:E; [done|].
    assert (Hin : (k, u) ∈ filter (λ kv : string * User, email kv.2 = e)
                               (map_to_list users)) by (rewrite E; left).
    apply list_elem_of_filter in Hin as [He Hin]. apply elem_of_map_to_list in Hin.
    by destruct (Hno k u Hin).
Qed.

(** With unique emails the user found by email is the user stored with
    it. *)
Lemma user_of_email_stored users k u :
  unique_emails users → users !! k = Some u →
  user_of_email users (email u) = Some (k, u).
Proof.
  intros Huniq Hk. destruct (user_of_email users (email u)) as [[k' u']|] eqn:E.
  - apply user_of_email_Some in E as [Hk' He].
    assert (k' = k) as -> by (by eapply Huniq). congruence.
  - pose proof (proj1 (user_of_email_None users (email u)) E k u Hk). done.
Qed.

(** What [findUnique] answers, when it answers. *)
Lemma user_findUnique_Ok users e r :
  user_findUnique users e = Ok r →
  ∃ e', e = Str e' ∧ text_ok e' = true ∧ r = user_of_email users e'.
Proof.
  unfold user_findUnique. destruct e as [| |e'|t]; try done.
  destruct (text_ok e') eqn:Et; [|done]. intros [= <-]. by exists e'.
Qed.

(** A new user with an email no user has keeps the emails unique. *)
Lemma unique_emails_insert users id row :
  unique_emails users → (∀ k u, users !! k = Some u → email u ≠ email row) →
  unique_emails (<[id := row]> users).
Proof.
  intros Huniq Hno k1 u1 k2 u2 H1 H2 Heq.
  apply lookup_insert_Some in H1 as [[<- <-]|[Hne1 H1]];
    apply lookup_insert_Some in H2 as [[<- <-]|[Hne2 H2]]; try done.
  - by destruct (Hno k2 u2).
  - by destruct (Hno k1 u1).
  - by eapply Huniq.
Qed.

(** What a 201 of the registration tells. *)
Lemma register_201 env salt e pw n users :
  a_status (register env salt e pw n users).2 = 201 →
  ∃ e' pw' n',
    (e = Str e' ∧ pw = Str pw' ∧ n = Str n') ∧
    (e' ≠ EmptyString ∧ pw' ≠ EmptyString ∧ n' ≠ EmptyString) ∧
    (text_ok e' = true ∧ text_ok n' = true) ∧
    (∀ k u, users !! k = Some u → email u ≠ e') ∧ users !! cuid env = None ∧
    let row := mkUser e' (bcrypt_hash salt pw') (Some n') (now env) (now env) in
    register env salt e pw n users
      = (<[cuid env := row]> users,
         mkAuthResponse 201 (UserJson (userWithoutPassword (cuid env, row)))).
Proof.
  unfold register.
  destruct (truthy e) eqn:Te; [|done]. destruct (truthy pw) eqn:Tp; [|done].
  destruct (truthy n) eqn:Tn; [|done]. cbn [andb].
  destruct (user_findUnique users e) as [[user|]|] eqn:Ef; [done| |by destruct pw].
  apply user_findUnique_Ok in Ef as (e' & -> & Hte & Hnone). symmetry in Hnone.
  destruct pw as [| |pw'|t]; try done. cbn zeta. unfold user_create.
  rewrite Hte. destruct (text_ok (bcrypt_hash salt pw')); [|done].
  destruct n as [| |n'|t]; try done. cbn [nullable_text_ok andb text_of].
  destruct (text_ok n') eqn:Htn; [|done].
  destruct (users !! cuid env) eqn:Eo; [done|]. rewrite Hnone. intros _.
  apply truthy_Str in Te, Tp, Tn.
  exists e', pw', n'. split_and!; try done. by apply user_of_email_None.
Qed.

(** A login with the email of a stored user. *)
Lemma login_stored users pw' k u :
  unique_emails users → users !! k = Some u →
  email u ≠ EmptyString → text_ok (email u) = true → pw' ≠ EmptyString →
  login (Str (email u)) (Str pw') users =
    if bcrypt_compare pw' (password u) then
      mkAuthResponse 200 (UserJson (userWithoutPassword (k, u)))
    else mkAuthResponse 401 (AuthMessage "Invalid credentials").
Proof.
  intros Huniq Hk He Ht Hp. unfold login.
  rewrite (truthy_Str_2 _ He), (truthy_Str_2 _ Hp). cbn [andb user_findUnique].
  by rewrite Ht, (user_of_email_stored users k u Huniq Hk).
Qed.

(** X13. A registration is answered 400 exactly when the email, the
    password or the name is falsy (absent, null, the empty string, 0 or
    false), and otherwise 409, 201 or 500. It is answered 409 only when
    a user has the email, and always when the three are truthy and the
    email is that of a stored user (an email without U+0000, as a
    registered email is). It is answered 201 only when the
    three are strings, the email and the name without U+0000, no user
    has the email and the cuid is not in use; the users are then the
    users before and one more under the cuid, with the bcrypt hash of
    the password sent as password, the answer is that user less the
    password, and emails stay unique. Unless the answer is 201 the
    users are unchanged. *)
Theorem registration_answers env salt e pw n users :
  let out := register env salt e pw n users in
  (a_status out.2 = 400 ↔ truthy e = false ∨ truthy pw = false ∨ truthy n = false) ∧
  (a_status out.2 = 400 ∨ a_status out.2 = 409 ∨ a_status out.2 = 201 ∨
   a_status out.2 = 500) ∧
  (a_status out.2 = 409 → ∃ k u, users !! k = Some u ∧ e = Str (email u)) ∧
  (truthy e = true → truthy pw = true → truthy n = true →
   ∀ k u, users !! k = Some u → e = Str (email u) → text_ok (email u) = true →
     a_status out.2 = 409) ∧
  (a_status out.2 ≠ 201 → out.1 = users) ∧
  (a_status out.2 = 201 →
     ∃ e' pw' n',
       (e = Str e' ∧ pw = Str pw' ∧ n = Str n') ∧
       (text_ok e' = true ∧ text_ok n' = true) ∧
       (∀ k u, users !! k = Some u → email u ≠ e') ∧ users !! cuid env = None ∧
       let row := mkUser e' (bcrypt_hash salt pw') (Some n') (now env) (now env) in
       out = (<[cuid env := row]> users,
              mkAuthResponse 201 (UserJson (userWithoutPassword (cuid env, row)))) ∧
       (unique_emails users → unique_emails out.1)).
Proof.
  intros out. split_and!.
  - unfold out, register.
    destruct (truthy e), (truthy pw), (truthy n); cbn [andb];
      try (split; [auto|done]).
    split; [|by intros [|[|]]].
    destruct (user_findUnique users e) as [[user|]|]; [done| |by destruct pw].
    destruct pw as [| |pw'|t]; try done. cbn zeta.
    by destruct (user_create _ _ _ _ _ _) as [[??]|].
  - unfold out, register. destruct (truthy e && truthy pw && truthy n); [|auto].
    destruct (user_findUnique users e) as [[user|]|]; [auto| |destruct pw; auto].
    destruct pw as [| |pw'|t]; auto. cbn zeta.
    destruct (user_create _ _ _ _ _ _) as [[??]|]; auto.
  - unfold out, register. destruct (truthy e && truthy pw && truthy n); [|done].
    destruct (user_findUnique users e) as [[[k u]|]|] eqn:Ef; [| |by destruct pw].
    + intros _. apply user_findUnique_Ok in Ef as (e' & -> & _ & Hu). symmetry in Hu.
      apply user_of_email_Some in Hu as [Hk <-]. by exists k, u.
    + destruct pw as [| |pw'|t]; try done. cbn zeta.
      by destruct (user_create _ _ _ _ _ _) as [[??]|].
  - unfold out, register. intros -> -> -> k u Hk -> Ht. cbn [andb user_findUnique].
    rewrite Ht.
    destruct (user_of_email users (email u)) as [user|] eqn:Ef; [done|].
    by destruct (proj1 (user_of_email_None users (email u)) Ef k u Hk).
  - unfold out, register. destruct (truthy e && truthy pw && truthy n); [|done].
    destruct (user_findUnique users e) as [[user|]|]; [done| |by destruct pw].
    destruct pw as [| |pw'|t]; try done. cbn zeta.
    by destruct (user_create _ _ _ _ _ _) as [[??]|].
  - intros (e' & pw' & n' & (He & Hp & Hn) & _ & (Ht1 & Ht2) & Hno & Hf & Hrun)%register_201.
    exists e', pw', n'. unfold out. cbn zeta in *. rewrite Hrun. cbn [fst].
    split_and!; try done. intros Huniq. by apply unique_emails_insert.
Qed.


(** X15. Registration and login round trip: when bcrypt accepts every
    password against its own hash and emails are unique, a login with
    the email and the password of a registration just answered 201 is
    answered 200 with the very user the registration returned. *)
Theorem register_then_login env salt e pw n users :
  (∀ s p, bcrypt_compare p (bcrypt_hash s p) = true) →
  unique_emails users →
  a_status (register env salt e pw n users).2 = 201 →
  login e pw (register env salt e pw n users).1
    = mkAuthResponse 200 (a_body (register env salt e pw n users).2).
Proof.
  intros Hlaw Huniq H201.
  destruct (register_201 env salt e pw n users H201)
    as (e' & pw' & n' & (-> & -> & ->) & (He & Hp & _) & (Hte & _) & Hno & Hfresh & ->).
  cbn [fst snd a_body].
  set (row := mkUser e' (bcrypt_hash salt pw') (Some n') (now env) (now env)).
  rewrite (login_stored (<[cuid env := row]> users) pw' (cuid env) row);
    [subst row; cbn [password]; by rewrite Hlaw|by apply unique_emails_insert
    |apply lookup_insert_eq|done..].
Qed.

End Auth.

Lemma plain_users_unique : unique_emails demo_users.
Proof.
  unfold demo_users.
  intros k1 u1 k2 u2 [<- _]%lookup_singleton_Some [<- _]%lookup_singleton_Some _. done.
Qed.


Lemma register_then_login_witness :
  login (H:=plain_bcrypt) (Str "bob@example.org") (Str "hunter2")
    (register (H:=plain_bcrypt) (mkEnv 3 "u2") "salt" (Str "bob@example.org")
       (Str "hunter2") (Str "Bob") demo_users).1
  = mkAuthResponse 200
      (a_body (register (H:=plain_bcrypt) (mkEnv 3 "u2") "salt"
                 (Str "bob@example.org") (Str "hunter2") (Str "Bob") demo_users).2).
Proof.
  apply (register_then_login (H:=plain_bcrypt)).
  - intros s p. apply String.eqb_refl.
  - apply plain_users_unique.
  - vm_compute. reflexivity.
Defined.

(** ** The token middleware *)

Lemma split_on_nonempty sep s : split_on sep s ≠ [].
Proof.
  destruct s as [|c rest]; simpl; [done|].
  destruct (Ascii.eqb c sep); [done|]. by destruct (split_on sep rest).
Qed.

(** A string without a space is its own only piece. *)
Lemma split_on_word w : word w = true → split_on " "%char w = [w].
Proof.
  induction w as [|c w IH]; simpl; [done|].
  intros [Hc Hw]%andb_true_iff. apply negb_true_iff in Hc. rewrite Hc.
  by rewrite (IH Hw).
Qed.

(** The pieces of a word, a space and a rest: the word, then the pieces
    of the rest. *)
Lemma split_on_word_space w rest :
  word w = true →
  split_on " "%char (w +:+ String " "%char rest) = w :: split_on " "%char rest.
Proof.
  induction w as [|c w IH]; simpl; [done|].
  intros [Hc Hw]%andb_true_iff. apply negb_true_iff in Hc. rewrite Hc.
  by rewrite (IH Hw).
Qed.

Lemma append_nonempty w s : w +:+ String " "%char s ≠ EmptyString.
Proof. by destruct w. Qed.

(** The token of a header made of a first word, a space and a second
    word, whatever follows the second word. *)
Lemma token_of_second_word scheme tok :
  word scheme = true → word tok = true →
  token_of (Some (scheme +:+ String " "%char tok)) = Some tok ∧
  ∀ more, token_of (Some (scheme +:+ String " "%char (tok +:+ String " "%char more)))
          = Some tok.
Proof.
  intros Hs Ht. unfold token_of. split.
  - destruct (String.eqb_spec (scheme +:+ String " " tok) EmptyString) as [E|_];
      [by destruct (append_nonempty _ _ E)|].
    by rewrite (split_on_word_space scheme tok Hs), (split_on_word tok Ht).
  - intros more.
    destruct (String.eqb_spec (scheme +:+ String " " (tok +:+ String " " more))
                EmptyString) as [E|_]; [by destruct (append_nonempty _ _ E)|].
    by rewrite (split_on_word_space scheme _ Hs), (split_on_word_space tok more Ht).
Qed.

(** X16. The middleware reads the second space-separated piece of the
    Authorization header as the token and never looks at the first: two
    headers with the same second word are treated alike whatever their
    scheme word and whatever follows the token. A request without the
    header, or whose header is one non-empty word (a bare token), is
    answered 401 whatever the secret and the verifier say. *)
Theorem token_is_the_second_word jwt_verify secret tok :
  word tok = true →
  (∀ scheme scheme' more,
     word scheme = true → word scheme' = true →
     authenticateToken jwt_verify secret (Some (scheme +:+ String " "%char tok))
       = authenticateToken jwt_verify secret
           (Some (scheme' +:+ String " "%char (tok +:+ String " "%char more)))) ∧
  authenticateToken jwt_verify secret None = Rejected 401 ∧
  (tok ≠ EmptyString →
   authenticateToken jwt_verify secret (Some tok) = Rejected 401).
Proof.
  intros Ht. split_and!.
  - intros scheme scheme' more Hs Hs'. unfold authenticateToken.
    destruct (token_of_second_word scheme tok Hs Ht) as [-> _].
    destruct (token_of_second_word scheme' tok Hs' Ht) as [_ Hmore].
    by rewrite Hmore.
  - done.
  - intros Hne. unfold authenticateToken, token_of.
    destruct (String.eqb_spec tok EmptyString) as [E|_]; [done|].
    by rewrite (split_on_word tok Ht).
Qed.

Lemma token_is_the_second_word_witness :
  (∀ scheme scheme' more,
     word scheme = true → word scheme' = true →
     authenticateToken (λ _ _, None) (Some "k") (Some (scheme +:+ String " "%char "abc"))
       = authenticateToken (λ _ _, None) (Some "k")
           (Some (scheme' +:+ String " "%char ("abc" +:+ String " "%char more)))) ∧
  authenticateToken (λ _ _, None) (Some "k") None = Rejected 401 ∧
  authenticateToken (λ _ _, None) (Some "k") (Some "abc") = Rejected 401.
Proof.
  destruct (token_is_the_second_word (λ _ _, None) (Some "k") "abc") as (H1 & H2 & H3).
  - reflexivity.
  - split; [exact H1|]. split; [exact H2|]. apply H3. discriminate.
Defined.

(** X17. The middleware calls [next()] exactly when the verifier
    accepts the header's token under a non-empty secret, and attaches
    as [req.user.id] whatever the decoded payload has for an id: a
    payload without an id passes with an undefined id. Its checks come
    in the order token, secret, verification: without a token the
    answer is 401 even when the secret is missing, with a token and a
    missing or empty secret it is 500 whatever the verifier would say,
    and 403 is the answer exactly when the verifier refuses the
    token. *)
Theorem next_exactly_when_verified jwt_verify secret header :
  (∀ uid, authenticateToken jwt_verify secret header = NextWith uid ↔
     ∃ tok s, token_of header = Some tok ∧ secret = Some s ∧ s ≠ EmptyString ∧
       jwt_verify tok s = Some uid) ∧
  (∀ tok s, token_of header = Some tok → secret = Some s → s ≠ EmptyString →
     jwt_verify tok s = Some Absent →
     authenticateToken jwt_verify secret header = NextWith Absent) ∧
  (authenticateToken jwt_verify secret header = Rejected 401 ↔
     token_of header = None) ∧
  (authenticateToken jwt_verify secret header = Rejected 500 ↔
     is_Some (token_of header) ∧ (secret = None ∨ secret = Some EmptyString)) ∧
  (authenticateToken jwt_verify secret header = Rejected 403 ↔
     ∃ tok s, token_of header = Some tok ∧ secret = Some s ∧ s ≠ EmptyString ∧
       jwt_verify tok s = None).
Proof.
  unfold authenticateToken. destruct (token_of header) as [tok|].
  - destruct secret as [s|].
    + destruct (String.eqb_spec s EmptyString) as [->|Hs].
      * split_and!.
        -- intros uid. split; [done|]. by intros (? & ? & _ & [= <-] & ? & _).
        -- by intros ? ? _ [= <-] ?.
        -- done.
        -- split; [|done]. intros _. split; [by eexists|by right].
        -- split; [done|]. by intros (? & ? & _ & [= <-] & ? & _).
      * destruct (jwt_verify tok s) as [id|] eqn:Ev; split_and!.
        -- intros uid. split.
           ++ intros [= <-]. by exists tok, s.
           ++ intros (? & ? & [= <-] & [= <-] & _ & Hv). congruence.
        -- intros ? ? [= <-] [= <-] _ Hv. congruence.
        -- done.
        -- split; [done|]. intros [_ [|[= ->]]]; done.
        -- split; [done|]. intros (? & ? & [= <-] & [= <-] & _ & Hv). congruence.
        -- intros uid. split; [done|].
           intros (? & ? & [= <-] & [= <-] & _ & Hv). congruence.
        -- intros ? ? [= <-] [= <-] _ Hv. congruence.
        -- done.
        -- split; [done|]. intros [_ [|[= ->]]]; done.
        -- split; [|done]. intros _. by exists tok, s.
    + split_and!.
      * intros uid. split; [done|]. by intros (? & ? & _ & ? & _).
      * by intros ? ? _ ?.
      * done.
      * split; [|done]. intros _. split; [by eexists|by left].
      * split; [done|]. by intros (? & ? & _ & ? & _).
  - split_and!.
    + intros uid. split; [done|]. by intros (? & ? & ? & _).
    + by intros ? ? ?.
    + done.
    + split; [done|]. by intros [[? ?] _].
    + split; [done|]. by intros (? & ? & ? & _).
Qed.

(** ** Projects *)

#[local] Instance created_desc_trans : Transitive created_desc.
Proof. intros x y z; unfold created_desc; lia. Qed.

#[local] Instance created_desc_total : Total created_desc.
Proof. intros x y; unfold created_desc; lia. Qed.






(** ** A reorder sent again *)

(** An id is named by no element of the list, or has a last position
    in it. *)
Lemma named_or_not (l : list element) k :
  (∀ t, Some t ∈ l → ref_id t ≠ Str k) ∨
  (∃ i t, l !! i = Some (Some t) ∧ ref_id t = Str k ∧
     ∀ j t', i < j → l !! j = Some (Some t') → ref_id t' ≠ Str k).
Proof.
  induction l as [|e l IH].
  { left. by intros t ?%elem_of_nil. }
  destruct IH as [Hno|(i & t & Hi & Hid & Hlast)].
  - destruct e as [t|].
    + destruct (ref_id t) as [| |s|b] eqn:Er.
      * left. intros t' [[= <-]|Hin]%elem_of_cons; [congruence|by apply Hno].
      * left. intros t' [[= <-]|Hin]%elem_of_cons; [congruence|by apply Hno].
      * destruct (decide (s = k)) as [->|Hne].
        -- right. exists 0, t. split_and!; [done..|].
           intros [|j] t' Hlt Hj; [lia|]. apply Hno. by eapply list_elem_of_lookup_2.
        -- left. intros t' [[= <-]|Hin]%elem_of_cons; [congruence|by apply Hno].
      * left. intros t' [[= <-]|Hin]%elem_of_cons; [congruence|by apply Hno].
    + left. intros t' [[=]|Hin]%elem_of_cons. by apply Hno.
  - right. exists (S i), t. split_and!; [done..|].
    intros [|j] t' Hlt Hj; [lia|]. apply (Hlast j); [lia|done].
Qed.

(** The POST handler collects queries only from objects with a truthy
    id, whatever the clock. *)
Lemma updatePromises_post_Ok_elem l : ∀ bid clock idx qs e,
  updatePromises_post bid clock idx l = Ok qs → e ∈ l →
  ∃ t, e = Some t ∧ truthy (ref_id t) = true.
Proof.
  induction l as [|[t0|] l IH]; intros bid clock idx qs e; simpl; try done.
  - by intros _ ?%elem_of_nil.
  - destruct (truthy (ref_id t0)) eqn:Et; [|done].
    destruct (updatePromises_post bid clock (S idx) l) as [qs'|] eqn:E; [|done].
    intros _ [->|He]%elem_of_cons; [by exists t0|]. by eapply IH.
Qed.

(** The same list run again on what the first run left: it commits, and
    no task changes but for [updatedAt]. *)
Lemma run_batch_patch_again l bid clock clock' qs qs' d d1 rs :
  updatePromises_patch bid clock 0 l = Ok qs → run_batch qs d = Ok (d1, rs) →
  updatePromises_patch bid clock' 0 l = Ok qs' →
  ∃ d2 rs', run_batch qs' d1 = Ok (d2, rs') ∧
    projects d2 = projects d1 ∧ boards d2 = boards d1 ∧
    ∀ k, task_content <$> tasks d2 !! k = task_content <$> tasks d1 !! k.
Proof.
  intros Hq Hr Hq'.
  destruct (run_batch_patch_spec _ _ _ _ _ _ _ _ Hq Hr)
    as (Hp1 & Hb1 & Hboard & Hall & Hother & Hidx).
  assert (Hcommit : ∃ d2 rs', run_batch qs' d1 = Ok (d2, rs')).
  { destruct l as [|e l].
    - simpl in Hq'. injection Hq' as <-. by eexists _, _.
    - apply (run_batch_patch_commits _ bid clock' 0 qs' d1 Hq').
      + rewrite Hb1. by apply Hboard.
      + intros t Ht. destruct (Hall (Some t) Ht) as (t' & k & [= <-] & Hk & _).
        exists k. split; [done|].
        destruct (named_or_not (e :: l) k) as [Hno|(i & t' & Hi & Hid & Hlast)].
        * by destruct (Hno t Ht).
        * destruct (Hidx i t' k Hi Hid Hlast) as (old & _ & ->). by eexists. }
  destruct Hcommit as (d2 & rs' & Hr'). exists d2, rs'. split; [done|].
  destruct (run_batch_patch_spec _ _ _ _ _ _ _ _ Hq' Hr')
    as (Hp2 & Hb2 & _ & _ & Hother' & Hidx').
  split_and!; [done..|]. intros k.
  destruct (named_or_not l k) as [Hno|(i & t & Hi & Hid & Hlast)].
  - by rewrite (Hother' k Hno).
  - destruct (Hidx i t k Hi Hid Hlast) as (old & _ & H1).
    destruct (Hidx' i t k Hi Hid Hlast) as (old1 & Hold1 & H2).
    rewrite H1 in Hold1. injection Hold1 as <-. by rewrite H1, H2.
Qed.

(** X20. A reorder answered 200 can be sent again: on the database it
    left, the same request (at any later clock reading) is answered 200
    again and changes no project, no board, and no task but for
    [updatedAt]: titles, descriptions, orders, boards and creation
    times stay. This holds of both handlers. *)
Theorem reorder_again_changes_nothing clock clock' rq d :
  (status (reorder_post clock rq d).2 = 200 →
   let d1 := (reorder_post clock rq d).1 in
   let d2 := (reorder_post clock' rq d1).1 in
   status (reorder_post clock' rq d1).2 = 200 ∧
   projects d2 = projects d1 ∧ boards d2 = boards d1 ∧
   ∀ k, task_content <$> tasks d2 !! k = task_content <$> tasks d1 !! k) ∧
  (status (reorder_patch clock rq d).2 = 200 →
   let d1 := (reorder_patch clock rq d).1 in
   let d2 := (reorder_patch clock' rq d1).1 in
   status (reorder_patch clock' rq d1).2 = 200 ∧
   projects d2 = projects d1 ∧ boards d2 = boards d1 ∧
   ∀ k, task_content <$> tasks d2 !! k = task_content <$> tasks d1 !! k).
Proof.
  split; intros H200 d1 d2.
  - pose proof H200 as (bid & l & qs & rs & Hb & Hl & Hq & Hr)%reorder_post_200.
    fold d1 in Hr. destruct Hb as [[Hb Hbid]|(-> & Ht & Hno)].
    2: { simpl in Hq. injection Hq as <-. simpl in Hr. injection Hr as Hd _.
         unfold d2. rewrite <- Hd. unfold reorder_post. by rewrite Ht, Hl. }
    destruct rq as [b ol]. simpl in Hb, Hl. subst b ol.
    unfold d2. rewrite (reorder_post_unfold clock' bid l d1 Hbid).
    destruct (bool_decide (length l = 0)) eqn:El; [done|].
    assert (Hpost : ∃ qs', updatePromises_post bid clock' 0 l = Ok qs') .
    { apply updatePromises_post_total. intros e He.
      revert H200. rewrite (reorder_post_unfold clock bid l d Hbid), El.
      destruct (updatePromises_post bid clock 0 l) as [qs0|] eqn:E0; [|done].
      intros _. by eapply updatePromises_post_Ok_elem. }
    destruct Hpost as [qs' Hpost]. rewrite Hpost.
    apply updatePromises_post_patch in Hpost.
    destruct (run_batch_patch_again l bid clock clock' qs qs' d d1 rs Hq Hr Hpost)
      as (d2' & rs' & -> & Hp & Hbo & Hc). done.
  - pose proof H200 as (bid & l & qs & rs & Hb & Hl & Hq & Hr)%reorder_patch_200.
    fold d1 in Hr. destruct Hb as [[Hb Hbid]|(-> & Ht & Hno)].
    2: { simpl in Hq. injection Hq as <-. simpl in Hr. injection Hr as Hd _.
         unfold d2. rewrite <- Hd. unfold reorder_patch. rewrite Ht, Hl.
         by destruct (rb_boardId rq). }
    destruct rq as [b ol]. simpl in Hb, Hl. subst b ol.
    unfold d2. rewrite (reorder_patch_unfold clock' bid l d1 Hbid).
    destruct (updatePromises_patch_total l bid clock' 0) as [qs' Hq'].
    { intros e He. by eapply updatePromises_patch_Ok_elem. }
    rewrite Hq'.
    destruct (run_batch_patch_again l bid clock clock' qs qs' d d1 rs Hq Hr Hq')
      as (d2' & rs' & -> & Hp & Hbo & Hc). done.
Qed.

Lemma reorder_again_changes_nothing_witness :
  (let d1 := (reorder_post 9 rq_swap demo_db).1 in
   let d2 := (reorder_post 12 rq_swap d1).1 in
   status (reorder_post 12 rq_swap d1).2 = 200 ∧
   projects d2 = projects d1 ∧ boards d2 = boards d1 ∧
   ∀ k, task_content <$> tasks d2 !! k = task_content <$> tasks d1 !! k) ∧
  (let d1 := (reorder_patch 9 rq_move demo_db).1 in
   let d2 := (reorder_patch 12 rq_move d1).1 in
   status (reorder_patch 12 rq_move d1).2 = 200 ∧
   projects d2 = projects d1 ∧ boards d2 = boards d1 ∧
   ∀ k, task_content <$> tasks d2 !! k = task_content <$> tasks d1 !! k).
Proof.
  split.
  - apply (proj1 (reorder_again_changes_nothing 9 12 rq_swap demo_db)).
    vm_compute. reflexivity.
  - apply (proj2 (reorder_again_changes_nothing 9 12 rq_move demo_db)).
    vm_compute. reflexivity.
Defined.

(** ** What a project delete keeps, and the answers of the updates *)

(** X21. Deleting a project that is not stored is answered 500, changes
    nothing and publishes nothing. Deleting a stored project removes
    nothing but the project, its boards and their tasks: every other
    project stays, a board stays exactly when it is of another project,
    and a task stays exactly when its board is not a board of the
    deleted project. *)
Theorem project_delete_keeps_the_rest pid d :
  (projects d !! pid = None →
   delete_project pid d
     = (d, mkResponse 500 (Message "Failed to delete project"), [])) ∧
  (is_Some (projects d !! pid) →
   let d' := (delete_project pid d).1.1 in
   (∀ p, p ≠ pid → projects d' !! p = projects d !! p) ∧
   (∀ b row, boards d' !! b = Some row ↔
      boards d !! b = Some row ∧ projectId row ≠ pid) ∧
   (∀ t row, tasks d' !! t = Some row ↔
      tasks d !! t = Some row ∧ ¬ board_of_project d pid (boardId row))).
Proof.
  split.
  - intros Hno. unfold delete_project, project_delete. by rewrite Hno.
  - intros Hp d'. unfold d', delete_project. rewrite (project_delete_Ok pid d Hp).
    cbn [fst snd projects boards tasks]. split_and!.
    + intros p Hne. by rewrite lookup_delete_ne.
    + intros b row. by rewrite map_lookup_filter_Some.
    + intros t row. by rewrite map_lookup_filter_Some.
Qed.

Lemma project_delete_keeps_the_rest_witness :
  delete_project "p9" demo_db
    = (demo_db, mkResponse 500 (Message "Failed to delete project"), []) ∧
  (let d' := (delete_project "p2" demo_db).1.1 in
   (∀ p, p ≠ "p2" → projects d' !! p = projects demo_db !! p) ∧
   (∀ b row, boards d' !! b = Some row ↔
      boards demo_db !! b = Some row ∧ projectId row ≠ "p2") ∧
   (∀ t row, tasks d' !! t = Some row ↔
      tasks demo_db !! t = Some row ∧ ¬ board_of_project demo_db "p2" (boardId row))).
Proof.
  split.
  - apply (proj1 (project_delete_keeps_the_rest "p9" demo_db)). reflexivity.
  - apply (proj2 (project_delete_keeps_the_rest "p2" demo_db)).
    vm_compute. eexists. reflexivity.
Defined.


